(** * Solar Energy Monitoring System (ESP32 sketch): shallow embedding

    The sketch [SolarEnergyMonitoringSystem.ino] samples two analog channels,
    multiplies the readings into a power figure, drives a relay from a fixed
    threshold and serves one HTML status page.

    The embedding follows the sketch statement by statement:
    - [float] values are IEEE-754 binary32, evaluated with the executable
      specification of the Standard Library ([SpecFloat], round to nearest
      even), so every conversion below computes the very bits the ESP32
      computes;
    - the global variables, the relay latch and the observable effects
      (analog reads, pin writes, delays, serial lines, HTTP replies) live in
      one [World] record threaded through a small state-and-error monad;
    - what the board and the network supply (ADC conversions, pending HTTP
      requests, the WiFi link) is an [Environment] of oracles. *)

From Stdlib Require Import ZArith QArith List String Ascii Bool Lia.
From Stdlib Require Import Floats.SpecFloat DecimalString.
Import ListNotations.

Local Open Scope Z_scope.

(* ================================================================== *)
(** * Part I: definitions *)
(* ================================================================== *)

(** ** Binary32 arithmetic *)

Module F32.

Definition float := spec_float.

(** Single precision: 24 significant bits, infinities at exponent 128. *)
Definition prec : Z := 24.
Definition emax : Z := 128.
(** Double precision, for literals and for the one expression the sketch
    evaluates in [double]. *)
Definition dprec : Z := 53.
Definition demax : Z := 1024.

Definition mul : float -> float -> float := SFmul prec emax.
Definition div : float -> float -> float := SFdiv prec emax.
Definition sub : float -> float -> float := SFsub prec emax.
Definition ddiv : float -> float -> float := SFdiv dprec demax.

(** C comparisons: every comparison with a NaN is false. *)
Definition ltb (x y : float) : bool := SFltb x y.
Definition leb (x y : float) : bool := SFleb x y.
Definition geb (x y : float) : bool := SFleb y x.
Definition gtb (x y : float) : bool := SFltb y x.
Definition eqb (x y : float) : bool := SFeqb x y.

(** [(float) n] for an [int] n. *)
Definition of_int (n : Z) : float := binary_normalize prec emax n 0 false.

(** [float] to [double] (exact) and [double] to [float] (rounding). *)
Definition to_double (x : float) : float :=
  match x with
  | S754_finite s m e => binary_round dprec demax s m e
  | _ => x
  end.

Definition of_double (x : float) : float :=
  match x with
  | S754_finite s m e => binary_round prec emax s m e
  | _ => x
  end.

(** A decimal literal [num/den] of the source text: it is a [double]
    constant (the nearest double to the decimal), and initialising a
    [const float] with it rounds once more. *)
Definition double_literal (num : Z) (den : positive) : float :=
  ddiv (binary_normalize dprec demax num 0 false)
       (binary_normalize dprec demax (Zpos den) 0 false).

Definition literal (num : Z) (den : positive) : float :=
  of_double (double_literal num den).

(** The Arduino core's [abs] on a [float]: the magnitude. *)
Definition abs (x : float) : float := SFabs x.

Definition is_nan (x : float) : bool :=
  match x with S754_nan => true | _ => false end.

Definition is_finite (x : float) : bool :=
  match x with S754_zero _ | S754_finite _ _ _ => true | _ => false end.

(** Finite and not negative: the class in which sensor readings live. *)
Definition nonneg_finite (x : float) : bool :=
  match x with
  | S754_zero _ | S754_finite false _ _ => true
  | _ => false
  end.

(** The exact rational a finite float denotes (0 for the others). *)
Definition to_Q (x : float) : Q :=
  match x with
  | S754_finite s m e =>
      let n := if s then Zneg m else Zpos m in
      match e with
      | Zneg p => Qmake n (Pos.pow 2 p)
      | _ => Qmake (n * 2 ^ e) 1
      end
  | _ => 0%Q
  end.

(** [|x - target| <= tol], decided on exact rationals. *)
Definition within (x : float) (target tol : Q) : bool :=
  is_finite x &&
  (Qle_bool (target - tol) (to_Q x) && Qle_bool (to_Q x) (target + tol)).

End F32.

(** ** Text helpers *)

(** Characters a string literal cannot hold are built from their codes. *)
Definition chr (n : nat) : string := String (ascii_of_nat n) EmptyString.
Definition dq : string := chr 34.
Definition nl : string := chr 10.
Definition crlf : string := (chr 13 ++ chr 10)%string.

(** ** Formatted output

    The sketch formats through printf-style templates ([String::format],
    [Serial.printf]) with the conversions [%.Nf], [%s] and [%%] only.  A
    [float] argument is promoted to [double] unchanged, and [%.Nf] prints
    the exact binary value rounded to N decimals, ties to even. *)

Module Printf.

Inductive arg : Type :=
| ArgF (x : F32.float)
| ArgS (s : string).

Inductive piece : Type :=
| Text (s : string)
| Fixed (decimals : nat)
| Str.

Definition digit_of (c : ascii) : option nat :=
  let n := nat_of_ascii c in
  if ((48 <=? n) && (n <=? 57))%nat then Some (n - 48)%nat else None.

Definition cons_char (c : ascii) (ps : list piece) : list piece :=
  match ps with
  | Text s :: ps' => Text (String c s) :: ps'
  | _ => Text (String c EmptyString) :: ps
  end.

(** Splits a template into literal text and conversions; [None] on a
    conversion outside the three above (undefined in the model). *)
Fixpoint parse (fmt : string) : option (list piece) :=
  match fmt with
  | EmptyString => Some []
  | String c rest =>
      if Ascii.eqb c "%" then
        match rest with
        | String c1 rest1 =>
            if Ascii.eqb c1 "s" then option_map (cons Str) (parse rest1)
            else if Ascii.eqb c1 "%" then option_map (cons_char "%") (parse rest1)
            else if Ascii.eqb c1 "." then
              match rest1 with
              | String d (String f rest3) =>
                  match digit_of d with
                  | Some n =>
                      if Ascii.eqb f "f"
                      then option_map (cons (Fixed n)) (parse rest3)
                      else None
                  | None => None
                  end
              | _ => None
              end
            else None
        | EmptyString => None
        end
      else option_map (cons_char c) (parse rest)
  end.

Definition decimal (n : Z) : string :=
  NilZero.string_of_uint (N.to_uint (Z.to_N n)).

Fixpoint zeros (n : nat) : string :=
  match n with
  | O => EmptyString
  | S n' => String "0" (zeros n')
  end.

Definition pad_left (width : nat) (s : string) : string :=
  (zeros (width - String.length s) ++ s)%string.

Definition round_half_even (num den : Z) : Z :=
  let q := num / den in
  match (2 * (num mod den)) ?= den with
  | Lt => q
  | Gt => q + 1
  | Eq => if Z.even q then q else q + 1
  end.

(** [|m * 2^e| * 10^n], rounded to an integer. *)
Definition scaled (n : nat) (m : positive) (e : Z) : Z :=
  match e with
  | Zneg p => round_half_even (Zpos m * 10 ^ Z.of_nat n) (2 ^ Zpos p)
  | _ => Zpos m * 2 ^ e * 10 ^ Z.of_nat n
  end.

Definition render (n : nat) (q : Z) : string :=
  let p := 10 ^ Z.of_nat n in
  (decimal (q / p) ++
   match n with
   | O => EmptyString
   | S _ => "." ++ pad_left n (decimal (q mod p))
   end)%string.

Definition sign (s : bool) : string := if s then "-"%string else EmptyString.

(** The conversion [%.Nf]. *)
Definition fixed (n : nat) (x : F32.float) : string :=
  match x with
  | S754_nan => "nan"
  | S754_infinity s => sign s ++ "inf"
  | S754_zero s => sign s ++ render n 0
  | S754_finite s m e => sign s ++ render n (scaled n m e)
  end%string.

(** Substitutes the arguments, left to right.  A conversion with no
    argument of its kind left is undefined ([None]); arguments in excess
    are ignored, as in C. *)
Fixpoint fill (ps : list piece) (args : list arg) : option string :=
  match ps with
  | [] => Some EmptyString
  | Text s :: ps' => option_map (append s) (fill ps' args)
  | Fixed n :: ps' =>
      match args with
      | ArgF x :: args' => option_map (append (fixed n x)) (fill ps' args')
      | _ => None
      end
  | Str :: ps' =>
      match args with
      | ArgS s :: args' => option_map (append s) (fill ps' args')
      | _ => None
      end
  end.

Definition format (fmt : string) (args : list arg) : option string :=
  match parse fmt with
  | Some ps => fill ps args
  | None => None
  end.

End Printf.

(** ** Compile-time configuration *)

(** The calibration constants of the sketch, gathered in a record so that a
    statement can vary one of them. *)
Record Config : Type := {
  VOLTAGE_SCALE_FACTOR : F32.float;
  ADC_MAX_VOLTAGE : F32.float;
  ADC_RESOLUTION : Z;
  CURRENT_SENSITIVITY : F32.float;
  ZERO_CURRENT_OFFSET : Z;
  MIN_POWER_TO_CONNECT_W : F32.float
}.

(** The values the sketch is compiled with. *)
Definition sketch : Config := {|
  VOLTAGE_SCALE_FACTOR := F32.literal 4 1;
  ADC_MAX_VOLTAGE := F32.literal 33 10;
  ADC_RESOLUTION := 4095;
  CURRENT_SENSITIVITY := F32.literal 185 1000;
  ZERO_CURRENT_OFFSET := 2048;
  MIN_POWER_TO_CONNECT_W := F32.literal 10 1
|}.

Definition with_zero_offset (z : Z) (cfg : Config) : Config := {|
  VOLTAGE_SCALE_FACTOR := VOLTAGE_SCALE_FACTOR cfg;
  ADC_MAX_VOLTAGE := ADC_MAX_VOLTAGE cfg;
  ADC_RESOLUTION := ADC_RESOLUTION cfg;
  CURRENT_SENSITIVITY := CURRENT_SENSITIVITY cfg;
  ZERO_CURRENT_OFFSET := z;
  MIN_POWER_TO_CONNECT_W := MIN_POWER_TO_CONNECT_W cfg
|}.

Definition with_threshold (t : F32.float) (cfg : Config) : Config := {|
  VOLTAGE_SCALE_FACTOR := VOLTAGE_SCALE_FACTOR cfg;
  ADC_MAX_VOLTAGE := ADC_MAX_VOLTAGE cfg;
  ADC_RESOLUTION := ADC_RESOLUTION cfg;
  CURRENT_SENSITIVITY := CURRENT_SENSITIVITY cfg;
  ZERO_CURRENT_OFFSET := ZERO_CURRENT_OFFSET cfg;
  MIN_POWER_TO_CONNECT_W := t
|}.

Definition VOLTAGE_PIN : Z := 34.
Definition CURRENT_PIN : Z := 35.
Definition LOAD_RELAY_PIN : Z := 27.

Definition ssid : string := "YOUR_WIFI_SSID".
Definition password : string := "YOUR_WIFI_PASSWORD".

(** ** The board, the network and the observable trace *)

Inductive Level : Type := LOW | HIGH.

Inductive Method : Type := HTTP_GET | HTTP_POST | HTTP_PUT | HTTP_DELETE.

Record Request : Type := { req_method : Method; req_uri : string }.

Inductive Event : Type :=
| AnalogRead (pin : Z) (value : Z)
| PinMode (pin : Z)
| DigitalWrite (pin : Z) (level : Level)
| Delay (ms : Z)
| SerialBegin (baud : Z)
| SerialOut (text : string)
| WiFiBegin (name pass : string)
| ServerBegin
| HttpSend (code : Z) (content_type body : string).

(** What the outside supplies: the [n]-th conversion of the ADC on a pin,
    the request (if any) found by the [n]-th [handleClient], the link state
    at the [n]-th [WiFi.status] and the address the access point leases. *)
Record Environment : Type := {
  adc : Z -> nat -> Z;
  client : nat -> option Request;
  wifi_connected : nat -> bool;
  localIP : string
}.

(** The global variables of the sketch (first four fields), the output
    latch of every pin, the routes of the web server, the number of calls
    made so far to each oracle, and everything the sketch did, oldest
    first. *)
Record World : Type := {
  currentVoltage : F32.float;
  currentCurrent : F32.float;
  currentPower : F32.float;
  loadConnected : bool;
  pins : Z -> Level;
  routes : list (string * Method);
  conversions : nat;
  polls : nat;
  wifi_polls : nat;
  trace : list Event
}.

Definition set_currentVoltage (v : F32.float) (w : World) : World :=
  {| currentVoltage := v; currentCurrent := currentCurrent w;
     currentPower := currentPower w; loadConnected := loadConnected w;
     pins := pins w; routes := routes w; conversions := conversions w;
     polls := polls w; wifi_polls := wifi_polls w; trace := trace w |}.

Definition set_currentCurrent (c : F32.float) (w : World) : World :=
  {| currentVoltage := currentVoltage w; currentCurrent := c;
     currentPower := currentPower w; loadConnected := loadConnected w;
     pins := pins w; routes := routes w; conversions := conversions w;
     polls := polls w; wifi_polls := wifi_polls w; trace := trace w |}.

Definition set_currentPower (p : F32.float) (w : World) : World :=
  {| currentVoltage := currentVoltage w; currentCurrent := currentCurrent w;
     currentPower := p; loadConnected := loadConnected w;
     pins := pins w; routes := routes w; conversions := conversions w;
     polls := polls w; wifi_polls := wifi_polls w; trace := trace w |}.

Definition set_loadConnected (b : bool) (w : World) : World :=
  {| currentVoltage := currentVoltage w; currentCurrent := currentCurrent w;
     currentPower := currentPower w; loadConnected := b;
     pins := pins w; routes := routes w; conversions := conversions w;
     polls := polls w; wifi_polls := wifi_polls w; trace := trace w |}.

Definition set_pins (f : Z -> Level) (w : World) : World :=
  {| currentVoltage := currentVoltage w; currentCurrent := currentCurrent w;
     currentPower := currentPower w; loadConnected := loadConnected w;
     pins := f; routes := routes w; conversions := conversions w;
     polls := polls w; wifi_polls := wifi_polls w; trace := trace w |}.

Definition set_routes (r : list (string * Method)) (w : World) : World :=
  {| currentVoltage := currentVoltage w; currentCurrent := currentCurrent w;
     currentPower := currentPower w; loadConnected := loadConnected w;
     pins := pins w; routes := r; conversions := conversions w;
     polls := polls w; wifi_polls := wifi_polls w; trace := trace w |}.

Definition set_conversions (n : nat) (w : World) : World :=
  {| currentVoltage := currentVoltage w; currentCurrent := currentCurrent w;
     currentPower := currentPower w; loadConnected := loadConnected w;
     pins := pins w; routes := routes w; conversions := n;
     polls := polls w; wifi_polls := wifi_polls w; trace := trace w |}.

Definition set_polls (n : nat) (w : World) : World :=
  {| currentVoltage := currentVoltage w; currentCurrent := currentCurrent w;
     currentPower := currentPower w; loadConnected := loadConnected w;
     pins := pins w; routes := routes w; conversions := conversions w;
     polls := n; wifi_polls := wifi_polls w; trace := trace w |}.

Definition set_wifi_polls (n : nat) (w : World) : World :=
  {| currentVoltage := currentVoltage w; currentCurrent := currentCurrent w;
     currentPower := currentPower w; loadConnected := loadConnected w;
     pins := pins w; routes := routes w; conversions := conversions w;
     polls := polls w; wifi_polls := n; trace := trace w |}.

Definition set_trace (t : list Event) (w : World) : World :=
  {| currentVoltage := currentVoltage w; currentCurrent := currentCurrent w;
     currentPower := currentPower w; loadConnected := loadConnected w;
     pins := pins w; routes := routes w; conversions := conversions w;
     polls := polls w; wifi_polls := wifi_polls w; trace := t |}.

(** The state at reset: the globals as their declarations initialise them,
    the pins at whatever level the hardware powers up with. *)
Definition boot (power_on : Z -> Level) : World :=
  {| currentVoltage := F32.literal 0 1; currentCurrent := F32.literal 0 1;
     currentPower := F32.literal 0 1; loadConnected := false;
     pins := power_on; routes := []; conversions := 0%nat;
     polls := 0%nat; wifi_polls := 0%nat; trace := [] |}.

Definition Level_eqb (a b : Level) : bool :=
  match a, b with
  | LOW, LOW | HIGH, HIGH => true
  | _, _ => false
  end.

Definition Method_eqb (a b : Method) : bool :=
  match a, b with
  | HTTP_GET, HTTP_GET | HTTP_POST, HTTP_POST
  | HTTP_PUT, HTTP_PUT | HTTP_DELETE, HTTP_DELETE => true
  | _, _ => false
  end.

(** The two states of the load, read off the relay pin. *)
Inductive LoadState : Type := Connected | Disconnected.

Definition load_state (w : World) : LoadState :=
  match pins w LOAD_RELAY_PIN with
  | HIGH => Connected
  | LOW => Disconnected
  end.

(** ** The monad of the sketch: state, and [None] for undefined behaviour
    or a loop that is out of fuel *)

Definition M (A : Type) : Type := World -> option (A * World).

Definition ret {A : Type} (a : A) : M A := fun w => Some (a, w).

Definition bind {A B : Type} (c : M A) (k : A -> M B) : M B :=
  fun w => match c w with
           | Some (a, w') => k a w'
           | None => None
           end.

Definition get : M World := fun w => Some (w, w).
Definition modify (f : World -> World) : M unit := fun w => Some (tt, f w).
Definition lift {A : Type} (o : option A) : M A :=
  fun w => match o with Some a => Some (a, w) | None => None end.
Definition emit (e : Event) : M unit :=
  modify (fun w => set_trace (trace w ++ [e]) w).

Declare Scope sketch_scope.
Delimit Scope sketch_scope with sketch.
Notation "x <- c ;; k" := (bind c (fun x => k))
  (at level 61, c at next level, right associativity) : sketch_scope.
Notation "c ;; k" := (bind c (fun _ => k))
  (at level 61, right associativity) : sketch_scope.
Local Open Scope sketch_scope.
Local Open Scope string_scope.

(** The world a computation leaves, and the value it returns. *)
Definition exec {A : Type} (c : M A) (w : World) : option World :=
  option_map snd (c w).
Definition eval {A : Type} (c : M A) (w : World) : option A :=
  option_map fst (c w).

(** A C [long] (32 bits on the ESP32) wraps around. *)
Definition wrap_long (z : Z) : Z := (z + 2 ^ 31) mod 2 ^ 32 - 2 ^ 31.

Definition sun_glyph : string :=
  (chr 195 ++ chr 176 ++ chr 197 ++ chr 184 ++
   chr 197 ++ chr 146 ++ chr 197 ++ chr 190)%string.

(** The raw string literal of [getPage]. *)
Definition html : string := String.concat nl (
  [
    EmptyString;
    "<!DOCTYPE html>";
    "<html>";
    "<head>";
    "<meta name=" ++ dq ++ "viewport" ++ dq ++ " content=" ++ dq
      ++ "width=device-width, initial-scale=1" ++ dq ++ ">";
    "<meta http-equiv=" ++ dq ++ "refresh" ++ dq ++ " content=" ++ dq ++ "5"
      ++ dq ++ "> ";
    "<title>Solar Monitor</title>";
    "<style>";
    "body { font-family: 'Segoe UI', Tahoma, Geneva, Verdana, sans-serif; background: #e0f2f1; margin: 0; padding: 20px;}";
    ".container { max-width: 600px; margin: auto; background: #ffffff; padding: 35px; border-radius: 12px; box-shadow: 0 6px 15px rgba(0,0,0,0.15); text-align: center; }";
    "h1 { color: #004d40; margin-bottom: 25px; }";
    ".metric-grid { display: grid; grid-template-columns: repeat(3, 1fr); gap: 20px; margin-bottom: 30px; }";
    ".metric-box { background: #f0f4c3; padding: 20px 10px; border-radius: 8px; box-shadow: 0 2px 5px rgba(0,0,0,0.05); }";
    ".metric-box h2 { font-size: 1.1em; color: #4caf50; margin: 0 0 5px 0; }";
    ".metric-box p { font-size: 2.0em; font-weight: bold; color: #1b5e20; margin: 0; }";
    ".status-box { padding: 15px; border-radius: 8px; font-weight: bold; font-size: 1.1em; }";
    ".status-box.on { background-color: #a5d6a7; color: #1b5e20; }";
    ".status-box.off { background-color: #ffccbc; color: #d84315; }";
    ".threshold { margin-top: 15px; font-size: 0.9em; color: #757575; }";
    "</style>";
    "</head>";
    "<body>";
    "<div class=" ++ dq ++ "container" ++ dq ++ ">";
    "<h1>" ++ sun_glyph ++ " Solar Energy Monitor</h1>";
    EmptyString;
    "<div class=" ++ dq ++ "metric-grid" ++ dq ++ ">";
    "    <div class=" ++ dq ++ "metric-box" ++ dq ++ ">";
    "        <h2>Voltage (V)</h2>";
    "        <p>%.2f</p>";
    "    </div>";
    "    <div class=" ++ dq ++ "metric-box" ++ dq ++ ">";
    "        <h2>Current (A)</h2>";
    "        <p>%.2f</p>";
    "    </div>";
    "    <div class=" ++ dq ++ "metric-box" ++ dq ++ ">";
    "        <h2>Power (W)</h2>";
    "        <p>%.2f</p>";
    "    </div>";
    "</div>";
    EmptyString;
    "<div class=" ++ dq ++ "status-box %s" ++ dq ++ ">";
    "    Load Status: %s";
    "</div>";
    EmptyString;
    "<div class=" ++ dq ++ "threshold" ++ dq ++ ">";
    "    Load Control Threshold: %.1f W";
    "</div>";
    EmptyString;
    "<p style=" ++ dq ++ "font-size: 0.8em; margin-top: 20px;" ++ dq
      ++ ">Data updates every 5 seconds.</p>";
    EmptyString;
    "</div>";
    "</body>";
    "</html>";
    EmptyString
  ])%string.

Section Sketch.

Variable cfg : Config.
Variable env : Environment.

(** *** The Arduino core, as far as the sketch calls it *)

(** [analogRead] of the ESP32 core returns a [uint16_t]: the conversion
    the environment supplies is taken modulo 2^16. *)
Definition analogRead (pin : Z) : M Z :=
  fun w =>
    let v := adc env pin (conversions w) mod 2 ^ 16 in
    Some (v, set_trace (trace w ++ [AnalogRead pin v])
               (set_conversions (S (conversions w)) w)).

Definition digitalRead (pin : Z) : M Level :=
  fun w => Some (pins w pin, w).

Definition digitalWrite (pin : Z) (l : Level) : M unit :=
  modify (fun w => set_pins (fun p => if Z.eqb p pin then l else pins w p) w);;
  emit (DigitalWrite pin l).

Definition pinMode_OUTPUT (pin : Z) : M unit := emit (PinMode pin).

Definition delay (ms : Z) : M unit := emit (Delay ms).

Definition Serial_begin (baud : Z) : M unit := emit (SerialBegin baud).
Definition Serial_print (s : string) : M unit := emit (SerialOut s).
Definition Serial_println (s : string) : M unit :=
  emit (SerialOut (s ++ crlf)).
Definition Serial_printf (fmt : string) (args : list Printf.arg) : M unit :=
  s <- lift (Printf.format fmt args);; emit (SerialOut s).

Definition String_format (fmt : string) (args : list Printf.arg) : M string :=
  lift (Printf.format fmt args).

Definition server_send (code : Z) (content_type body : string) : M unit :=
  emit (HttpSend code content_type body).

Definition server_on (path : string) (m : Method) : M unit :=
  modify (fun w => set_routes (routes w ++ [(path, m)]) w).

Definition server_begin : M unit := emit ServerBegin.

Definition WiFi_begin (name pass : string) : M unit :=
  emit (WiFiBegin name pass).

Definition WiFi_status_connected : M bool :=
  fun w => Some (wifi_connected env (wifi_polls w),
                 set_wifi_polls (S (wifi_polls w)) w).

(** *** Sensor reading functions *)

Definition readVoltage : M F32.float :=
  adcValue <- analogRead VOLTAGE_PIN;;
  let voltage :=
    F32.mul
      (F32.mul (F32.div (F32.of_int adcValue) (F32.of_int (ADC_RESOLUTION cfg)))
               (ADC_MAX_VOLTAGE cfg))
      (VOLTAGE_SCALE_FACTOR cfg) in
  ret voltage.

(** The sampling loop of [readCurrent], [n] iterations left. *)
Fixpoint readCurrent_samples (n : nat) (totalAdc : Z) : M Z :=
  match n with
  | O => ret totalAdc
  | S n' =>
      v <- analogRead CURRENT_PIN;;
      delay 1;;
      readCurrent_samples n' (wrap_long (totalAdc + v))
  end.

Definition readCurrent : M F32.float :=
  totalAdc <- readCurrent_samples 20 0;;
  let avgAdc := Z.quot totalAdc 20 in
  let sensorVoltage :=
    F32.mul (F32.div (F32.of_int avgAdc) (F32.of_int (ADC_RESOLUTION cfg)))
            (ADC_MAX_VOLTAGE cfg) in
  let voltageOffset :=
    F32.of_double
      (F32.ddiv (F32.to_double (ADC_MAX_VOLTAGE cfg)) (F32.double_literal 2 1)) in
  let currentAmps :=
    F32.div (F32.sub sensorVoltage voltageOffset) (CURRENT_SENSITIVITY cfg) in
  ret (F32.abs currentAmps).

(** *** Core control logic for the load relay *)

Definition controlLoad : M unit :=
  w <- get;;
  if F32.geb (currentPower w) (MIN_POWER_TO_CONNECT_W cfg) then
    l <- digitalRead LOAD_RELAY_PIN;;
    if Level_eqb l LOW then
      digitalWrite LOAD_RELAY_PIN HIGH;;
      modify (set_loadConnected true);;
      Serial_printf
        ("LOAD ON: Power %.2f W (above %.1f W threshold)." ++ nl)
        [Printf.ArgF (currentPower w);
         Printf.ArgF (MIN_POWER_TO_CONNECT_W cfg)]
    else ret tt
  else
    l <- digitalRead LOAD_RELAY_PIN;;
    if Level_eqb l HIGH then
      digitalWrite LOAD_RELAY_PIN LOW;;
      modify (set_loadConnected false);;
      Serial_printf
        ("LOAD OFF: Power %.2f W (below %.1f W threshold)." ++ nl)
        [Printf.ArgF (currentPower w);
         Printf.ArgF (MIN_POWER_TO_CONNECT_W cfg)]
    else ret tt.

(** *** Web server handler *)

Definition getPage : M string :=
  w <- get;;
  let status_class := if loadConnected w then "on" else "off" in
  let status_text :=
    if loadConnected w then "CONNECTED" else "DISCONNECTED (Low Power)" in
  String_format html
    [Printf.ArgF (currentVoltage w);
     Printf.ArgF (currentCurrent w);
     Printf.ArgF (currentPower w);
     Printf.ArgS status_class;
     Printf.ArgS status_text;
     Printf.ArgF (MIN_POWER_TO_CONNECT_W cfg)].

Definition handleRoot : M unit :=
  page <- getPage;;
  server_send 200 "text/html" page.

(** [server.handleClient()]: serves the request the environment has
    pending, if any; a request with no registered route gets the
    library's 404. *)
Definition server_handleClient : M unit :=
  w <- get;;
  modify (set_polls (S (polls w)));;
  match client env (polls w) with
  | None => ret tt
  | Some r =>
      if existsb (fun rt => String.eqb (fst rt) (req_uri r)
                            && Method_eqb (snd rt) (req_method r))
                 (routes w)
      then handleRoot
      else server_send 404 "text/plain" ("Not found: " ++ req_uri r)
  end.

(** *** [setup] and [loop] *)

(** The wait for the access point: [while (WiFi.status() != WL_CONNECTED)]. *)
Fixpoint wait_for_wifi (fuel : nat) : M unit :=
  match fuel with
  | O => fun _ => None
  | S fuel' =>
      up <- WiFi_status_connected;;
      if up then ret tt
      else delay 500;; Serial_print ".";; wait_for_wifi fuel'
  end.

Definition setup (fuel : nat) : M unit :=
  Serial_begin 115200;;
  pinMode_OUTPUT LOAD_RELAY_PIN;;
  digitalWrite LOAD_RELAY_PIN LOW;;
  WiFi_begin ssid password;;
  wait_for_wifi fuel;;
  Serial_println (nl ++ "WiFi connected.");;
  Serial_print "IP Address: ";;
  Serial_println (localIP env);;
  server_on "/" HTTP_GET;;
  server_begin;;
  Serial_println "HTTP Server started.".

(** Lines 214 to 218 of [loop]: the two readings and their product. *)
Definition acquire : M unit :=
  v <- readVoltage;;
  modify (set_currentVoltage v);;
  c <- readCurrent;;
  modify (set_currentCurrent c);;
  w <- get;;
  modify (set_currentPower (F32.mul (currentVoltage w) (currentCurrent w))).

(** The diagnostic line printed once per tick. *)
Definition report : M unit :=
  w <- get;;
  Serial_printf ("V: %.2f V | I: %.2f A | P: %.2f W | Load: %s" ++ nl)
    [Printf.ArgF (currentVoltage w);
     Printf.ArgF (currentCurrent w);
     Printf.ArgF (currentPower w);
     Printf.ArgS (if loadConnected w then "ON" else "OFF")].

Definition loop : M unit :=
  server_handleClient;;
  acquire;;
  controlLoad;;
  report;;
  delay 5000.

(** [n] iterations of [loop]. *)
Fixpoint loops (n : nat) : M unit :=
  match n with
  | O => ret tt
  | S n' => loop;; loops n'
  end.

(** The states the sketch is in at the top of [loop]. *)
Inductive reachable : World -> Prop :=
| reach_setup (power_on : Z -> Level) (fuel : nat) (w : World) :
    exec (setup fuel) (boot power_on) = Some w -> reachable w
| reach_loop (w w' : World) :
    reachable w -> exec loop w = Some w' -> reachable w'.

End Sketch.

(** ** Auxiliary definitions for the statements *)

(** The [k] values [analogRead] returns on [pin] from the [n]-th conversion
    on. *)
Definition next_samples (env : Environment) (pin : Z) (n k : nat) : list Z :=
  map (fun i => adc env pin (n + i) mod 2 ^ 16) (seq 0 k).

(** What [readCurrent] leaves in the trace for a list of samples. *)
Definition sampling_events (samples : list Z) : list Event :=
  flat_map (fun v => [AnalogRead CURRENT_PIN v; Delay 1]) samples.

(** An environment whose ADC converts every input to [v], with no HTTP
    client and the access point in reach. *)
Definition steady (v : Z) : Environment :=
  {| adc := fun _ _ => v;
     client := fun _ => None;
     wifi_connected := fun _ => true;
     localIP := "192.168.4.1" |}.

(** The decision step run once per power figure, and the relay level read
    back after each run. *)
Fixpoint decide_each (cfg : Config) (powers : list F32.float) : M (list Level) :=
  match powers with
  | [] => ret []
  | p :: ps =>
      modify (set_currentPower p);;
      controlLoad cfg;;
      l <- digitalRead LOAD_RELAY_PIN;;
      ls <- decide_each cfg ps;;
      ret (l :: ls)
  end.

(** The stages of the specification, as classes of events. *)
Definition is_acquisition_event (e : Event) : bool :=
  match e with
  | AnalogRead _ _ => true
  | Delay ms => Z.eqb ms 1
  | _ => false
  end.

Definition is_decision_event (e : Event) : bool :=
  match e with
  | DigitalWrite pin _ => Z.eqb pin LOAD_RELAY_PIN
  | SerialOut _ => true
  | _ => false
  end.

Definition is_page_event (e : Event) : bool :=
  match e with
  | HttpSend _ _ _ => true
  | _ => false
  end.

Definition is_analog_read (e : Event) : bool :=
  match e with
  | AnalogRead _ _ => true
  | _ => false
  end.

(** Two worlds with the same readings, and with the same oracle positions
    and routes. *)
Definition same_readings (w w' : World) : Prop :=
  currentVoltage w' = currentVoltage w /\
  currentCurrent w' = currentCurrent w /\
  currentPower w' = currentPower w.

Definition same_inputs (w w' : World) : Prop :=
  conversions w' = conversions w /\ polls w' = polls w /\
  wifi_polls w' = wifi_polls w /\ routes w' = routes w.

(** The flag mirrors the relay pin. *)
Definition synchronized (w : World) : Prop :=
  loadConnected w = Level_eqb (pins w LOAD_RELAY_PIN) HIGH.

(** The world [setup] hands to the wait. *)
Definition before_wifi (w : World) : World :=
  set_trace
    (trace w ++
     [SerialBegin 115200; PinMode LOAD_RELAY_PIN;
      DigitalWrite LOAD_RELAY_PIN LOW; WiFiBegin ssid password])
    (set_pins (fun p => if Z.eqb p LOAD_RELAY_PIN then LOW else pins w p) w).

(** The world [setup] leaves when the access point answers the first poll
    and the pins power up high. *)
Definition first_world (env : Environment) : World :=
  match exec (setup env 1) (boot (fun _ => HIGH)) with
  | Some w => w
  | None => boot (fun _ => HIGH)
  end.

(** The tick of the end-to-end example: the voltage of raw sample 2048, a
    current of 2.0 A and their product, with the relay off. *)
Definition example_tick : World :=
  set_currentPower
    (F32.mul
       (F32.mul
          (F32.mul (F32.div (F32.of_int 2048) (F32.of_int (ADC_RESOLUTION sketch)))
                   (ADC_MAX_VOLTAGE sketch))
          (VOLTAGE_SCALE_FACTOR sketch))
       (F32.literal 2 1))
    (set_currentCurrent (F32.literal 2 1)
       (set_currentVoltage
          (F32.mul
             (F32.mul (F32.div (F32.of_int 2048) (F32.of_int (ADC_RESOLUTION sketch)))
                      (ADC_MAX_VOLTAGE sketch))
             (VOLTAGE_SCALE_FACTOR sketch))
          (boot (fun _ => LOW)))).

(** An environment with one [GET /] pending at the first poll. *)
Definition polled_once : Environment :=
  {| adc := fun _ _ => 2048;
     client := fun n =>
       if Nat.eqb n 0
       then Some {| req_method := HTTP_GET; req_uri := "/" |}
       else None;
     wifi_connected := fun _ => true;
     localIP := "192.168.4.1" |}.

(** The reset state with the route of the sketch registered. *)
Definition serving : World :=
  set_routes [("/", HTTP_GET)] (boot (fun _ => LOW)).

(** What one poll of the web server sends in world [w]. *)
Definition served (cfg : Config) (env : Environment) (w : World) : list Event :=
  match client env (polls w) with
  | None => []
  | Some r =>
      if existsb (fun rt => String.eqb (fst rt) (req_uri r)
                            && Method_eqb (snd rt) (req_method r))
                 (routes w)
      then match eval (getPage cfg) w with
           | Some page => [HttpSend 200 "text/html" page]
           | None => []
           end
      else [HttpSend 404 "text/plain" ("Not found: " ++ req_uri r)]
  end.

(** The literal text of the page template between its conversions. *)
Definition html_texts : list string :=
  match Printf.parse html with
  | Some ps =>
      flat_map (fun p => match p with Printf.Text t => [t] | _ => [] end) ps
  | None => []
  end.

Definition html_text (k : nat) : string := nth k html_texts EmptyString.

(** ** The conversions in the words of the specification *)

Module Spec.

(** [raw / resolution * reference_voltage]. *)
Definition sense_voltage (cfg : Config) (raw : Z) : F32.float :=
  F32.mul (F32.div (F32.of_int raw) (F32.of_int (ADC_RESOLUTION cfg)))
          (ADC_MAX_VOLTAGE cfg).

(** [sample / resolution * reference_voltage * divider_ratio]. *)
Definition voltage_conversion (cfg : Config) (sample : Z) : F32.float :=
  F32.mul (sense_voltage cfg sample) (VOLTAGE_SCALE_FACTOR cfg).

Definition total (samples : list Z) : Z := fold_left Z.add samples 0.

(** The average of the samples, an integer as the samples are. *)
Definition average (samples : list Z) : Z :=
  Z.quot (total samples) (Z.of_nat (List.length samples)).

(** The theoretical mid-scale offset: half the reference voltage. *)
Definition mid_scale (cfg : Config) : F32.float :=
  F32.of_double
    (F32.ddiv (F32.to_double (ADC_MAX_VOLTAGE cfg)) (F32.double_literal 2 1)).

(** Average, sense voltage, offset, sensitivity, magnitude. *)
Definition current_conversion (cfg : Config) (samples : list Z) : F32.float :=
  F32.abs
    (F32.div (F32.sub (sense_voltage cfg (average samples)) (mid_scale cfg))
             (CURRENT_SENSITIVITY cfg)).

(** The sense voltage of the configured zero-current offset. *)
Definition zero_offset_voltage (cfg : Config) : F32.float :=
  sense_voltage cfg (ZERO_CURRENT_OFFSET cfg).

(** The status page: the template with its six conversions replaced. *)
Definition status_page (v c p : F32.float) (connected : bool)
           (threshold : F32.float) : string :=
  html_text 0 ++ Printf.fixed 2 v ++
  html_text 1 ++ Printf.fixed 2 c ++
  html_text 2 ++ Printf.fixed 2 p ++
  html_text 3 ++ (if connected then "on" else "off") ++
  html_text 4 ++
    (if connected then "CONNECTED" else "DISCONNECTED (Low Power)") ++
  html_text 5 ++ Printf.fixed 1 threshold ++
  html_text 6.

(** The diagnostic line of a tick. *)
Definition status_line (v c p : F32.float) (connected : bool) : string :=
  "V: " ++ Printf.fixed 2 v ++ " V | I: " ++ Printf.fixed 2 c ++
  " A | P: " ++ Printf.fixed 2 p ++ " W | Load: " ++
  (if connected then "ON" else "OFF") ++ nl.

End Spec.

(** ** Auxiliary definitions for the further properties *)

Local Open Scope list_scope.

(** The level the decision step wants on the relay, and the line it prints
    when it switches to that level. *)
Definition desired_level (cfg : Config) (w : World) : Level :=
  if F32.geb (currentPower w) (MIN_POWER_TO_CONNECT_W cfg) then HIGH else LOW.

Definition switch_line (cfg : Config) (w : World) : string :=
  match desired_level cfg w with
  | HIGH =>
      "LOAD ON: Power " ++ Printf.fixed 2 (currentPower w) ++ " W (above " ++
      Printf.fixed 1 (MIN_POWER_TO_CONNECT_W cfg) ++ " W threshold)." ++ nl
  | LOW =>
      "LOAD OFF: Power " ++ Printf.fixed 2 (currentPower w) ++ " W (below " ++
      Printf.fixed 1 (MIN_POWER_TO_CONNECT_W cfg) ++ " W threshold)." ++ nl
  end%string.

(** The levels written to the relay pin, oldest first. *)
Fixpoint relay_writes (t : list Event) : list Level :=
  match t with
  | [] => []
  | DigitalWrite pin l :: t' =>
      if Z.eqb pin LOAD_RELAY_PIN then l :: relay_writes t' else relay_writes t'
  | _ :: t' => relay_writes t'
  end.

(** Every write to a pin other than the relay. *)
Definition writes_relay_only (t : list Event) : bool :=
  forallb (fun e => match e with
                    | DigitalWrite pin _ => Z.eqb pin LOAD_RELAY_PIN
                    | _ => true
                    end) t.

(** No level is written twice in a row, starting after level [prev]. *)
Fixpoint alternating (prev : Level) (ls : list Level) : bool :=
  match ls with
  | [] => true
  | l :: ls' => negb (Level_eqb prev l) && alternating l ls'
  end.

(** The time the sketch spends in [delay], in milliseconds. *)
Fixpoint total_delay (t : list Event) : Z :=
  match t with
  | [] => 0
  | Delay ms :: t' => ms + total_delay t'
  | _ :: t' => total_delay t'
  end.

(** An environment whose access point answers from the [k]-th poll on. *)
Definition link_up_at (k : nat) : Environment :=
  {| adc := fun _ _ => 0;
     client := fun _ => None;
     wifi_connected := fun n => Nat.leb k n;
     localIP := "192.168.4.1" |}.

(** An environment with no access point in reach. *)
Definition offline : Environment :=
  {| adc := fun _ _ => 0;
     client := fun _ => None;
     wifi_connected := fun _ => false;
     localIP := EmptyString |}.
(** The dots [setup] prints while it waits, one per failed poll. *)
Definition waiting_events (k : nat) : list Event :=
  List.concat (repeat [Delay 500; SerialOut "."] k).

(** Everything [setup] does when the link comes up after [k] failed polls. *)
Definition setup_events (env : Environment) (k : nat) : list Event :=
  [SerialBegin 115200; PinMode LOAD_RELAY_PIN;
   DigitalWrite LOAD_RELAY_PIN LOW; WiFiBegin ssid password] ++
  waiting_events k ++
  [SerialOut ((nl ++ "WiFi connected.") ++ crlf)%string;
   SerialOut "IP Address: ";
   SerialOut (localIP env ++ crlf)%string;
   ServerBegin;
   SerialOut ("HTTP Server started." ++ crlf)%string].
(** [P] holds at the [n] integers from [z] on. *)
Fixpoint holds_from (P : Z -> bool) (z : Z) (n : nat) : bool :=
  match n with
  | O => true
  | S n' => P z && holds_from P (z + 1) n'
  end.

(** The current the sketch computes from an average of [a] counts. *)
Definition current_of_average (a : Z) : F32.float :=
  F32.abs
    (F32.div
       (F32.sub
          (F32.mul (F32.div (F32.of_int a) (F32.of_int (ADC_RESOLUTION sketch)))
                   (ADC_MAX_VOLTAGE sketch))
          (F32.of_double
             (F32.ddiv (F32.to_double (ADC_MAX_VOLTAGE sketch))
                       (F32.double_literal 2 1))))
       (CURRENT_SENSITIVITY sketch)).

(** The smallest current the sketch can report: 9354378 * 2^-32 A. *)
Definition least_current : F32.float := S754_finite false 9354378 (-32).

(** The relay was first written low, never written twice with the same
    level, and the pin holds the last level written. *)
Definition relay_history_ok (w : World) : Prop :=
  exists rest : list Level,
    relay_writes (trace w) = LOW :: rest /\
    alternating LOW rest = true /\
    last (LOW :: rest) LOW = pins w LOAD_RELAY_PIN.

(** What the acquisition of an iteration that starts at conversion [n] adds
    to the trace: one voltage read, then twenty current reads 1 ms apart. *)
Definition acquisition_events (env : Environment) (n : nat) : list Event :=
  AnalogRead VOLTAGE_PIN (adc env VOLTAGE_PIN n mod 2 ^ 16)
  :: sampling_events (next_samples env CURRENT_PIN (S n) 20).

(** What the decision step adds to the trace in world [w]: nothing when the
    relay pin already has the level the power calls for, else the write of
    that level and its line. *)
Definition decision_events (cfg : Config) (w : World) : list Event :=
  if Level_eqb (pins w LOAD_RELAY_PIN) (desired_level cfg w) then []
  else [DigitalWrite LOAD_RELAY_PIN (desired_level cfg w);
        SerialOut (switch_line cfg w)].

(* ================================================================== *)
(** * Part II: lemmas and theorems *)
(* ================================================================== *)

Local Open Scope list_scope.
Local Open Scope Z_scope.
Local Open Scope sketch_scope.

(** Projections of updated worlds. *)
Ltac world_simpl :=
  cbn [currentVoltage currentCurrent currentPower loadConnected pins routes
       conversions polls wifi_polls trace
       set_currentVoltage set_currentCurrent set_currentPower
       set_loadConnected set_pins set_routes set_conversions set_polls
       set_wifi_polls set_trace fst snd].

(** ** Binary32 facts *)

(** The constants of the sketch, as bits: 4.0, 3.3f, 0.185f, 10.0 and the
    1.65 that [readCurrent] subtracts. *)
Lemma sketch_constants :
  VOLTAGE_SCALE_FACTOR sketch = S754_finite false 8388608 (-21) /\
  ADC_MAX_VOLTAGE sketch = S754_finite false 13841203 (-22) /\
  F32.of_int (ADC_RESOLUTION sketch) = S754_finite false 16773120 (-12) /\
  CURRENT_SENSITIVITY sketch = S754_finite false 12415140 (-26) /\
  MIN_POWER_TO_CONNECT_W sketch = S754_finite false 10485760 (-20) /\
  Spec.mid_scale sketch = S754_finite false 13841203 (-23).
Proof. vm_compute. repeat split; reflexivity. Qed.

Lemma boot_globals_zero (power_on : Z -> Level) :
  currentVoltage (boot power_on) = S754_zero false /\
  currentCurrent (boot power_on) = S754_zero false /\
  currentPower (boot power_on) = S754_zero false.
Proof. repeat split; reflexivity. Qed.

Section Rounding.

Variables prec emax : Z.

Lemma iter_pos_invariant (A : Type) (f : A -> A) (P : A -> Prop) :
  (forall x, P x -> P (f x)) ->
  forall (p : positive) (x : A), P x -> P (iter_pos f p x).
Proof.
  intros Hf p; induction p as [p IH | p IH | ]; intros x Hx; simpl.
  - apply IH, IH, Hf, Hx.
  - apply IH, IH, Hx.
  - apply Hf, Hx.
Qed.

Lemma shr_1_nonneg (r : shr_record) : 0 <= shr_m r -> 0 <= shr_m (shr_1 r).
Proof.
  destruct r as [m r s]; simpl; intros Hm.
  destruct m as [ | [p | p | ] | p ]; simpl; lia.
Qed.

Lemma shr_nonneg (r : shr_record) (e n : Z) :
  0 <= shr_m r -> 0 <= shr_m (fst (shr r e n)).
Proof.
  intros Hr; destruct n as [ | p | p ]; simpl; auto.
  apply (iter_pos_invariant _ shr_1 (fun x => 0 <= shr_m x)); auto.
  apply shr_1_nonneg.
Qed.

Lemma shr_fexp_nonneg (m e : Z) (l : location) :
  0 <= m -> 0 <= shr_m (fst (shr_fexp prec emax m e l)).
Proof.
  intros Hm; unfold shr_fexp; apply shr_nonneg.
  destruct l as [ | [ | | ] ]; simpl; exact Hm.
Qed.

Lemma round_nearest_even_nonneg (m : Z) (l : location) :
  0 <= m -> 0 <= round_nearest_even m l.
Proof.
  intros Hm; destruct l as [ | [ | | ] ]; simpl; try lia.
  destruct (Z.even m); lia.
Qed.

(** Rounding a non-negative mantissa never produces a NaN. *)
Lemma binary_round_aux_not_nan (sx : bool) (mx ex : Z) (lx : location) :
  0 <= mx -> F32.is_nan (binary_round_aux prec emax sx mx ex lx) = false.
Proof.
  intros Hm; unfold binary_round_aux.
  pose proof (shr_fexp_nonneg mx ex lx Hm) as H1.
  destruct (shr_fexp prec emax mx ex lx) as [mrs' e']; simpl in H1.
  pose proof (shr_fexp_nonneg
                (round_nearest_even (shr_m mrs') (loc_of_shr_record mrs'))
                e' loc_Exact
                (round_nearest_even_nonneg _ _ H1)) as H2.
  destruct (shr_fexp prec emax _ e' loc_Exact) as [mrs'' e'']; simpl in H2.
  destruct (shr_m mrs'') as [ | p | p ]; simpl; try reflexivity; try lia.
  destruct (e'' <=? emax - prec); reflexivity.
Qed.

Lemma binary_round_not_nan (s : bool) (m : positive) (e : Z) :
  F32.is_nan (binary_round prec emax s m e) = false.
Proof.
  unfold binary_round.
  destruct (shl_align m e _) as [mz ez].
  apply binary_round_aux_not_nan; lia.
Qed.

Lemma binary_normalize_not_nan (m e : Z) (s : bool) :
  F32.is_nan (binary_normalize prec emax m e s) = false.
Proof.
  destruct m; simpl; auto using binary_round_not_nan.
Qed.

Lemma SFmul_finite_not_nan (x : spec_float) (s : bool) (m : positive) (e : Z) :
  F32.is_nan x = false ->
  F32.is_nan (SFmul prec emax x (S754_finite s m e)) = false.
Proof.
  destruct x as [sx | sx | | sx mx ex]; simpl; intros Hx; try easy.
  apply binary_round_aux_not_nan; lia.
Qed.

Lemma SFmul_finite_finite_not_nan (x y : spec_float) :
  F32.is_finite x = true -> F32.is_finite y = true ->
  F32.is_nan (SFmul prec emax x y) = false.
Proof.
  destruct x as [sx | sx | | sx mx ex], y as [sy | sy | | sy my ey];
    simpl; intros Hx Hy; try easy.
  apply binary_round_aux_not_nan; lia.
Qed.

Lemma SFdiv_finite_not_nan (x : spec_float) (s : bool) (m : positive) (e : Z) :
  F32.is_nan x = false ->
  F32.is_nan (SFdiv prec emax x (S754_finite s m e)) = false.
Proof.
  destruct x as [sx | sx | | sx mx ex]; simpl; intros Hx; try easy.
  unfold SFdiv_core_binary.
  set (e' := Z.min _ _).
  set (m' := match ex - e - e' with
             | 0 => Z.pos mx
             | Z.pos _ => Z.shiftl (Z.pos mx) (ex - e - e')
             | Z.neg _ => 0
             end).
  assert (Hm' : 0 <= m').
  { subst m'; destruct (ex - e - e') eqn:E; try lia.
    apply Z.shiftl_nonneg; lia. }
  pose proof (Z.div_pos m' (Z.pos m) Hm' ltac:(lia)) as Hq.
  unfold Z.div in Hq.
  destruct (Z.div_eucl m' (Z.pos m)) as [q r].
  apply binary_round_aux_not_nan; exact Hq.
Qed.

Lemma SFsub_finite_not_nan (x : spec_float) (s : bool) (m : positive) (e : Z) :
  F32.is_nan x = false ->
  F32.is_nan (SFsub prec emax x (S754_finite s m e)) = false.
Proof.
  destruct x as [sx | sx | | sx mx ex]; simpl; intros Hx; try easy.
  apply binary_normalize_not_nan.
Qed.

End Rounding.

Lemma abs_nonneg (x : F32.float) :
  F32.is_nan x = false -> F32.geb (F32.abs x) (S754_zero false) = true.
Proof.
  destruct x as [s | s | | s m e]; simpl; intros Hx; try easy.
Qed.

(** For a number, [>=] and [<] against a number are complementary. *)
Lemma geb_ltb_complement (x y : F32.float) :
  F32.is_nan x = false -> F32.is_nan y = false ->
  F32.geb x y = negb (F32.ltb x y).
Proof.
  unfold F32.geb, F32.ltb, SFleb, SFltb.
  destruct x as [sx | sx | | sx mx ex], y as [sy | sy | | sy my ey];
    simpl; intros Hx Hy; try easy;
    try (destruct sx; reflexivity); try (destruct sy; reflexivity);
    try (destruct sx, sy; reflexivity).
  rewrite !Pos.compare_cont_spec; simpl.
  destruct sx, sy; try reflexivity;
    destruct (Z.compare_spec ex ey), (Z.compare_spec ey ex);
    try lia; try reflexivity; subst;
    destruct (Pos.compare_spec mx my), (Pos.compare_spec my mx);
    simpl; try lia; reflexivity.
Qed.

(** [<] is transitive on finite non-negative floats. *)
Lemma ltb_trans_nonneg (x y z : F32.float) :
  F32.nonneg_finite x = true -> F32.nonneg_finite y = true ->
  F32.nonneg_finite z = true ->
  F32.ltb x y = true -> F32.ltb y z = true -> F32.ltb x z = true.
Proof.
  unfold F32.ltb, SFltb.
  destruct x as [sx | sx | | [ | ] mx ex], y as [sy | sy | | [ | ] my ey],
           z as [sz | sz | | [ | ] mz ez]; simpl; try easy.
  intros _ _ _.
  rewrite !Pos.compare_cont_spec; simpl.
  destruct (Z.compare_spec ex ey), (Z.compare_spec ey ez),
           (Z.compare_spec ex ez); try easy; try lia; subst.
  destruct (Pos.compare_spec mx my), (Pos.compare_spec my mz),
           (Pos.compare_spec mx mz); simpl; try easy; try lia.
Qed.

(** ** Checking a property over a whole ADC range by evaluation *)

Lemma forallb_range (P : Z -> bool) (n : nat) :
  forallb P (map Z.of_nat (seq 0 n)) = true ->
  forall z, 0 <= z < Z.of_nat n -> P z = true.
Proof.
  intros H z Hz.
  rewrite forallb_forall in H.
  apply H, in_map_iff.
  exists (Z.to_nat z); split; [ lia | ].
  apply in_seq; lia.
Qed.

(** A chain that rises at every step rises between any two of its points. *)
Lemma rising_chain (f : Z -> F32.float) (n : Z) :
  (forall s, 0 <= s < n ->
     F32.ltb (f s) (f (s + 1)) = true /\
     F32.nonneg_finite (f s) = true /\ F32.nonneg_finite (f (s + 1)) = true) ->
  forall s1 s2, 0 <= s1 -> s1 < s2 -> s2 <= n ->
    F32.ltb (f s1) (f s2) = true.
Proof.
  intros Hstep s1 s2 H0 Hlt Hn.
  replace s2 with (s1 + 1 + Z.of_nat (Z.to_nat (s2 - s1 - 1))) by lia.
  assert (Hk : s1 + 1 + Z.of_nat (Z.to_nat (s2 - s1 - 1)) <= n) by lia.
  revert Hk; generalize (Z.to_nat (s2 - s1 - 1)) as k.
  induction k as [ | k IH]; intros Hk.
  - rewrite Z.add_0_r. apply Hstep; lia.
  - replace (s1 + 1 + Z.of_nat (S k)) with (s1 + 1 + Z.of_nat k + 1) by lia.
    destruct (Hstep (s1 + 1 + Z.of_nat k) ltac:(lia)) as (Hl & Ha & Hb).
    destruct (Hstep s1 ltac:(lia)) as (_ & Hs & _).
    apply ltb_trans_nonneg with (y := f (s1 + 1 + Z.of_nat k)); auto.
    apply IH; lia.
Qed.

(** ** The formatted texts of the sketch *)

Lemma html_parsed :
  Printf.parse html =
  Some [Printf.Text (html_text 0); Printf.Fixed 2;
        Printf.Text (html_text 1); Printf.Fixed 2;
        Printf.Text (html_text 2); Printf.Fixed 2;
        Printf.Text (html_text 3); Printf.Str;
        Printf.Text (html_text 4); Printf.Str;
        Printf.Text (html_text 5); Printf.Fixed 1;
        Printf.Text (html_text 6)].
Proof. vm_compute. reflexivity. Qed.


Lemma append_empty_r (s : string) : (s ++ EmptyString)%string = s.
Proof. induction s as [ | c s IH]; simpl; [ | rewrite IH ]; reflexivity. Qed.

Lemma format_html (v c p t : F32.float) (connected : bool) :
  Printf.format html
    [Printf.ArgF v; Printf.ArgF c; Printf.ArgF p;
     Printf.ArgS (if connected then "on" else "off");
     Printf.ArgS (if connected then "CONNECTED" else "DISCONNECTED (Low Power)");
     Printf.ArgF t]
  = Some (Spec.status_page v c p connected t).
Proof.
  unfold Printf.format; rewrite html_parsed.
  cbn [Printf.fill option_map].
  unfold Spec.status_page; rewrite append_empty_r; reflexivity.
Qed.

Lemma format_load_on (p t : F32.float) :
  Printf.format ("LOAD ON: Power %.2f W (above %.1f W threshold)." ++ nl)
    [Printf.ArgF p; Printf.ArgF t]
  = Some ("LOAD ON: Power " ++ Printf.fixed 2 p ++ " W (above " ++
          Printf.fixed 1 t ++ " W threshold)." ++ nl)%string.
Proof.
  unfold Printf.format.
  assert (H : Printf.parse
                ("LOAD ON: Power %.2f W (above %.1f W threshold)." ++ nl) =
              Some [Printf.Text "LOAD ON: Power "; Printf.Fixed 2;
                    Printf.Text " W (above "; Printf.Fixed 1;
                    Printf.Text (" W threshold)." ++ nl)])
    by (vm_compute; reflexivity).
  rewrite H; cbn [Printf.fill option_map].
  rewrite append_empty_r; reflexivity.
Qed.

Lemma format_load_off (p t : F32.float) :
  Printf.format ("LOAD OFF: Power %.2f W (below %.1f W threshold)." ++ nl)
    [Printf.ArgF p; Printf.ArgF t]
  = Some ("LOAD OFF: Power " ++ Printf.fixed 2 p ++ " W (below " ++
          Printf.fixed 1 t ++ " W threshold)." ++ nl)%string.
Proof.
  unfold Printf.format.
  assert (H : Printf.parse
                ("LOAD OFF: Power %.2f W (below %.1f W threshold)." ++ nl) =
              Some [Printf.Text "LOAD OFF: Power "; Printf.Fixed 2;
                    Printf.Text " W (below "; Printf.Fixed 1;
                    Printf.Text (" W threshold)." ++ nl)])
    by (vm_compute; reflexivity).
  rewrite H; cbn [Printf.fill option_map].
  rewrite append_empty_r; reflexivity.
Qed.

Lemma format_report (v c p : F32.float) (connected : bool) :
  Printf.format ("V: %.2f V | I: %.2f A | P: %.2f W | Load: %s" ++ nl)
    [Printf.ArgF v; Printf.ArgF c; Printf.ArgF p;
     Printf.ArgS (if connected then "ON" else "OFF")]
  = Some (Spec.status_line v c p connected).
Proof.
  unfold Printf.format.
  assert (H : Printf.parse
                ("V: %.2f V | I: %.2f A | P: %.2f W | Load: %s" ++ nl) =
              Some [Printf.Text "V: "; Printf.Fixed 2;
                    Printf.Text " V | I: "; Printf.Fixed 2;
                    Printf.Text " A | P: "; Printf.Fixed 2;
                    Printf.Text " W | Load: "; Printf.Str;
                    Printf.Text nl])
    by (vm_compute; reflexivity).
  rewrite H; cbn [Printf.fill option_map].
  unfold Spec.status_line; rewrite append_empty_r; reflexivity.
Qed.

(** ** Running the functions of the sketch *)

Lemma wrap_long_small (z : Z) : - 2 ^ 31 <= z < 2 ^ 31 -> wrap_long z = z.
Proof. intros H; unfold wrap_long; rewrite Z.mod_small; lia. Qed.

Lemma next_samples_S (env : Environment) (pin : Z) (n k : nat) :
  next_samples env pin n (S k) =
  adc env pin n mod 2 ^ 16 :: next_samples env pin (S n) k.
Proof.
  unfold next_samples; cbn [seq map].
  rewrite Nat.add_0_r; f_equal.
  rewrite <- seq_shift, map_map.
  apply map_ext; intros i; rewrite Nat.add_succ_r; reflexivity.
Qed.

Lemma next_samples_length (env : Environment) (pin : Z) (n k : nat) :
  List.length (next_samples env pin n k) = k.
Proof. unfold next_samples; rewrite length_map, length_seq; reflexivity. Qed.

Lemma next_samples_range (env : Environment) (pin : Z) (n k : nat) :
  Forall (fun v => 0 <= v < 2 ^ 16) (next_samples env pin n k).
Proof.
  unfold next_samples; apply Forall_forall; intros v Hv.
  apply in_map_iff in Hv; destruct Hv as (i & <- & _).
  apply Z.mod_pos_bound; lia.
Qed.

(** Twenty 16-bit samples never wrap the 32-bit accumulator. *)
Lemma accumulate_no_wrap (samples : list Z) (acc : Z) :
  Forall (fun v => 0 <= v < 2 ^ 16) samples ->
  0 <= acc -> acc + 2 ^ 16 * Z.of_nat (List.length samples) < 2 ^ 31 ->
  fold_left (fun a v => wrap_long (a + v)) samples acc =
  fold_left Z.add samples acc.
Proof.
  intros Hs; revert acc.
  induction Hs as [ | v samples Hv Hs IH]; intros acc H0 Hb; simpl; auto.
  simpl List.length in Hb.
  rewrite wrap_long_small by lia.
  apply IH; lia.
Qed.

Section Runs.

Variable cfg : Config.
Variable env : Environment.

Lemma readVoltage_run (w : World) :
  readVoltage cfg env w =
  Some (Spec.voltage_conversion cfg
          (adc env VOLTAGE_PIN (conversions w) mod 2 ^ 16),
        set_trace
          (trace w ++
           [AnalogRead VOLTAGE_PIN
              (adc env VOLTAGE_PIN (conversions w) mod 2 ^ 16)])
          (set_conversions (S (conversions w)) w)).
Proof. reflexivity. Qed.

Lemma readCurrent_samples_run (k : nat) :
  forall (acc : Z) (w : World),
    readCurrent_samples env k acc w =
    Some (fold_left (fun a v => wrap_long (a + v))
            (next_samples env CURRENT_PIN (conversions w) k) acc,
          set_trace
            (trace w ++
             sampling_events (next_samples env CURRENT_PIN (conversions w) k))
            (set_conversions (conversions w + k) w)).
Proof.
  induction k as [ | k IH]; intros acc w.
  - destruct w; unfold set_trace, set_conversions; simpl.
    rewrite app_nil_r, Nat.add_0_r; reflexivity.
  - rewrite next_samples_S.
    cbn [readCurrent_samples]; unfold bind at 1.
    unfold analogRead at 1; cbn beta iota zeta.
    unfold delay, emit, modify, bind at 1; cbn beta iota zeta.
    rewrite IH; cbn [fold_left].
    destruct w; unfold set_trace, set_conversions; simpl.
    rewrite <- !app_assoc, Nat.add_succ_r; reflexivity.
Qed.

Lemma readCurrent_run (w : World) :
  readCurrent cfg env w =
  Some (Spec.current_conversion cfg
          (next_samples env CURRENT_PIN (conversions w) 20),
        set_trace
          (trace w ++
           sampling_events (next_samples env CURRENT_PIN (conversions w) 20))
          (set_conversions (conversions w + 20) w)).
Proof.
  unfold readCurrent, bind; rewrite readCurrent_samples_run.
  unfold ret; do 2 f_equal.
  unfold Spec.current_conversion, Spec.sense_voltage, Spec.mid_scale,
    Spec.average, Spec.total.
  rewrite next_samples_length.
  rewrite accumulate_no_wrap;
    [ reflexivity | apply next_samples_range | lia
    | rewrite next_samples_length; simpl; lia ].
Qed.

Lemma getPage_run (w : World) :
  getPage cfg w =
  Some (Spec.status_page (currentVoltage w) (currentCurrent w)
          (currentPower w) (loadConnected w) (MIN_POWER_TO_CONNECT_W cfg),
        w).
Proof.
  unfold getPage, bind, get, String_format, lift.
  rewrite format_html; reflexivity.
Qed.

End Runs.

Section Decision.

Variable cfg : Config.

(** The decision step always returns; it leaves the relay pin at the
    level the comparison selects, touches no reading and no oracle, and
    adds relay writes and serial text only. *)
Lemma controlLoad_run (w : World) :
  exists (w' : World) (evs : list Event),
    controlLoad cfg w = Some (tt, w') /\
    pins w' LOAD_RELAY_PIN =
      (if F32.geb (currentPower w) (MIN_POWER_TO_CONNECT_W cfg)
       then HIGH else LOW) /\
    (forall p, p <> LOAD_RELAY_PIN -> pins w' p = pins w p) /\
    loadConnected w' =
      (if Level_eqb (pins w LOAD_RELAY_PIN) (pins w' LOAD_RELAY_PIN)
       then loadConnected w
       else Level_eqb (pins w' LOAD_RELAY_PIN) HIGH) /\
    same_readings w w' /\ same_inputs w w' /\
    trace w' = trace w ++ evs /\
    forallb is_decision_event evs = true.
Proof.
  unfold controlLoad, bind, get, digitalRead.
  destruct (F32.geb (currentPower w) (MIN_POWER_TO_CONNECT_W cfg)) eqn:Hge;
    destruct (pins w LOAD_RELAY_PIN) eqn:Hpin; cbn [Level_eqb].
  all: unfold digitalWrite, Serial_printf, bind, modify, emit, lift, ret;
    rewrite ?format_load_on, ?format_load_off.
  all: eexists; eexists; split; [ reflexivity | ].
  all: unfold same_readings, same_inputs;
    cbn [pins loadConnected currentVoltage currentCurrent currentPower
         conversions polls wifi_polls routes trace
         set_pins set_loadConnected set_trace];
    rewrite ?Hpin, ?Z.eqb_refl; cbn [Level_eqb].
  all: repeat match goal with |- _ /\ _ => split end; try reflexivity.
  all: try (intros p Hp; destruct (Z.eqb_spec p LOAD_RELAY_PIN);
            [ contradiction | reflexivity ]).
  all: try (rewrite <- app_assoc; reflexivity).
  all: try (symmetry; apply app_nil_r).
  all: reflexivity.
Qed.

End Decision.

Section Stages.

Variable cfg : Config.
Variable env : Environment.

Lemma served_pages_only (w : World) :
  forallb is_page_event (served cfg env w) = true.
Proof.
  unfold served.
  destruct (client env (polls w)) as [r | ]; [ | reflexivity ].
  destruct (existsb _ (routes w)); [ | reflexivity ].
  destruct (eval (getPage cfg) w); reflexivity.
Qed.

Lemma server_handleClient_run (w : World) :
  server_handleClient cfg env w =
  Some (tt, set_trace (trace w ++ served cfg env w)
              (set_polls (S (polls w)) w)).
Proof.
  unfold server_handleClient, served, eval, bind, get, modify.
  destruct (client env (polls w)) as [r | ].
  - cbn [routes set_polls].
    destruct (existsb _ (routes w)).
    + unfold handleRoot, bind; rewrite !getPage_run.
      reflexivity.
    + reflexivity.
  - unfold ret; rewrite app_nil_r.
    destruct w; reflexivity.
Qed.

(** The acquisition stage: one voltage sample, twenty current samples,
    and the product of the two conversions. *)
Lemma acquire_run (w : World) :
  let s := adc env VOLTAGE_PIN (conversions w) mod 2 ^ 16 in
  let samples := next_samples env CURRENT_PIN (S (conversions w)) 20 in
  let v := Spec.voltage_conversion cfg s in
  let c := Spec.current_conversion cfg samples in
  acquire cfg env w =
  Some (tt,
        set_currentPower (F32.mul v c)
          (set_currentCurrent c
             (set_currentVoltage v
                (set_trace
                   (trace w ++
                    AnalogRead VOLTAGE_PIN s :: sampling_events samples)
                   (set_conversions (conversions w + 21) w))))).
Proof.
  intros s samples v c.
  unfold acquire, bind; rewrite readVoltage_run.
  unfold modify at 1; rewrite readCurrent_run.
  unfold modify, get; world_simpl.
  rewrite <- app_assoc.
  replace (S (conversions w) + 20)%nat with (conversions w + 21)%nat by lia.
  reflexivity.
Qed.

Lemma report_run (w : World) :
  report w =
  Some (tt,
        set_trace
          (trace w ++
           [SerialOut (Spec.status_line (currentVoltage w) (currentCurrent w)
                         (currentPower w) (loadConnected w))])
          w).
Proof.
  unfold report, bind, get, Serial_printf, lift.
  rewrite format_report; reflexivity.
Qed.

End Stages.

(** ** One iteration of [loop] *)

Section Ticks.

Variable cfg : Config.
Variable env : Environment.

Lemma loop_run (w : World) :
  let w0 := set_trace (trace w ++ served cfg env w)
              (set_polls (S (polls w)) w) in
  let s := adc env VOLTAGE_PIN (conversions w) mod 2 ^ 16 in
  let samples := next_samples env CURRENT_PIN (S (conversions w)) 20 in
  exists (w1 w2 : World) (decided : list Event),
    server_handleClient cfg env w = Some (tt, w0) /\
    acquire cfg env w0 = Some (tt, w1) /\
    controlLoad cfg w1 = Some (tt, w2) /\
    loop cfg env w =
      Some (tt,
            set_trace
              (trace w2 ++
               [SerialOut (Spec.status_line (currentVoltage w2)
                             (currentCurrent w2) (currentPower w2)
                             (loadConnected w2));
                Delay 5000])
              w2) /\
    currentVoltage w1 = Spec.voltage_conversion cfg s /\
    currentCurrent w1 = Spec.current_conversion cfg samples /\
    currentPower w1 = F32.mul (currentVoltage w1) (currentCurrent w1) /\
    pins w1 = pins w /\ loadConnected w1 = loadConnected w /\
    routes w1 = routes w /\
    trace w1 =
      trace w ++ served cfg env w ++
      AnalogRead VOLTAGE_PIN s :: sampling_events samples /\
    same_readings w1 w2 /\ routes w2 = routes w /\
    pins w2 LOAD_RELAY_PIN =
      (if F32.geb (currentPower w1) (MIN_POWER_TO_CONNECT_W cfg)
       then HIGH else LOW) /\
    loadConnected w2 =
      (if Level_eqb (pins w1 LOAD_RELAY_PIN) (pins w2 LOAD_RELAY_PIN)
       then loadConnected w1
       else Level_eqb (pins w2 LOAD_RELAY_PIN) HIGH) /\
    trace w2 = trace w1 ++ decided /\
    forallb is_decision_event decided = true.
Proof.
  intros w0 s samples.
  pose proof (acquire_run cfg env w0) as Hacq; cbv zeta in Hacq.
  change (conversions w0) with (conversions w) in Hacq.
  fold s samples in Hacq.
  set (w1 := set_currentPower _ _) in Hacq.
  destruct (controlLoad_run cfg w1)
    as (w2 & decided & Hctl & Hpin & _ & Hflag & Hread & Hin & Htr & Hdec).
  exists w1, w2, decided.
  split; [ apply server_handleClient_run | ].
  split; [ exact Hacq | ].
  split; [ exact Hctl | ].
  split.
  { unfold loop, bind.
    rewrite server_handleClient_run; fold w0.
    rewrite Hacq, Hctl, report_run.
    unfold delay, emit, modify.
    cbn [set_trace trace currentVoltage currentCurrent currentPower
           loadConnected pins routes conversions polls wifi_polls].
    rewrite <- app_assoc; reflexivity. }
  destruct Hin as (_ & _ & _ & Hr).
  split; [ reflexivity | ].
  split; [ reflexivity | ].
  split; [ subst w1; world_simpl; reflexivity | ].
  split; [ reflexivity | ].
  split; [ reflexivity | ].
  split; [ reflexivity | ].
  split.
  { subst w1 w0;
      cbn [trace set_currentPower set_currentCurrent set_currentVoltage
           set_trace set_conversions set_polls].
    rewrite <- app_assoc; reflexivity. }
  split; [ exact Hread | ].
  split; [ rewrite Hr; reflexivity | ].
  split; [ exact Hpin | ].
  split; [ exact Hflag | ].
  split; [ exact Htr | exact Hdec ].
Qed.

End Ticks.


(** ** [setup] and the reachable states *)

Section Startup.

Variable env : Environment.

(** Waiting for the access point touches nothing but the trace and the
    number of status polls. *)
Lemma wait_for_wifi_keeps (fuel : nat) :
  forall (w w' : World),
    wait_for_wifi env fuel w = Some (tt, w') ->
    pins w' = pins w /\ loadConnected w' = loadConnected w /\
    same_readings w w' /\ routes w' = routes w /\
    conversions w' = conversions w /\ polls w' = polls w.
Proof.
  induction fuel as [ | fuel IH]; intros w w' H; [ discriminate | ].
  cbn [wait_for_wifi] in H.
  unfold bind at 1, WiFi_status_connected in H.
  destruct (wifi_connected env (wifi_polls w)).
  - injection H as <-; unfold same_readings; world_simpl; auto 10.
  - unfold delay, Serial_print, emit, modify, bind at 1 in H.
    unfold bind at 1 in H.
    apply IH in H; revert H; unfold same_readings; world_simpl; auto.
Qed.

(** The wait ends as soon as the link is up, given fuel for the polls
    before that. *)
Lemma wait_for_wifi_returns (k : nat) :
  forall (fuel : nat) (w : World),
    wifi_connected env (wifi_polls w + k) = true -> (k < fuel)%nat ->
    exists w', wait_for_wifi env fuel w = Some (tt, w').
Proof.
  induction k as [ | k IH]; intros fuel w Hup Hfuel;
    (destruct fuel as [ | fuel]; [ lia | ]);
    cbn [wait_for_wifi]; unfold bind at 1, WiFi_status_connected.
  - rewrite Nat.add_0_r in Hup; rewrite Hup; eexists; reflexivity.
  - destruct (wifi_connected env (wifi_polls w)); [ eexists; reflexivity | ].
    unfold delay, Serial_print, emit, modify, bind at 1.
    unfold bind at 1.
    apply IH; [ | lia ].
    world_simpl; rewrite Nat.add_succ_r in Hup; exact Hup.
Qed.

(** With the link down at every poll the wait exhausts any fuel. *)
Lemma wait_for_wifi_blocks (fuel : nat) :
  forall (w : World),
    (forall n, wifi_connected env n = false) ->
    wait_for_wifi env fuel w = None.
Proof.
  induction fuel as [ | fuel IH]; intros w Hdown; [ reflexivity | ].
  cbn [wait_for_wifi]; unfold bind at 1, WiFi_status_connected.
  rewrite Hdown.
  unfold delay, Serial_print, emit, modify, bind at 1.
  unfold bind at 1.
  apply IH, Hdown.
Qed.

Lemma setup_split (fuel : nat) (w : World) :
  setup env fuel w =
  match wait_for_wifi env fuel (before_wifi w) with
  | Some (_, w1) =>
      Some (tt,
            set_trace
              (trace w1 ++
               [SerialOut ((nl ++ "WiFi connected.") ++ crlf)%string;
                SerialOut "IP Address: ";
                SerialOut (localIP env ++ crlf)%string;
                ServerBegin;
                SerialOut ("HTTP Server started." ++ crlf)%string])
              (set_routes (routes w1 ++ [("/"%string, HTTP_GET)]) w1))
  | None => None
  end.
Proof.
  unfold setup.
  unfold bind at 1, Serial_begin, emit, modify.
  unfold bind at 1, pinMode_OUTPUT, emit, modify.
  unfold bind at 1, digitalWrite, emit, modify, bind at 1.
  unfold bind at 1, WiFi_begin, emit, modify.
  unfold bind at 1.
  match goal with
  | |- match wait_for_wifi env fuel ?a with _ => _ end = _ =>
      replace a with (before_wifi w)
  end.
  2:{ unfold before_wifi; world_simpl.
      rewrite <- !app_assoc; reflexivity. }
  destruct (wait_for_wifi env fuel (before_wifi w)) as [[[] w1] | ];
    [ | reflexivity ].
  unfold Serial_println, Serial_print, server_on, server_begin, emit,
    modify, bind.
  world_simpl; rewrite <- !app_assoc; reflexivity.
Qed.

(** What [setup] establishes whenever it returns. *)
Lemma setup_run (fuel : nat) (power_on : Z -> Level) (w : World) :
  exec (setup env fuel) (boot power_on) = Some w ->
  pins w LOAD_RELAY_PIN = LOW /\ loadConnected w = false /\
  same_readings (boot power_on) w /\
  routes w = [("/"%string, HTTP_GET)] /\
  conversions w = 0%nat /\ polls w = 0%nat.
Proof.
  unfold exec; rewrite setup_split.
  destruct (wait_for_wifi env fuel (before_wifi (boot power_on)))
    as [[[] w1] | ] eqn:Hwait; [ | discriminate ].
  cbn [option_map snd]; intros H; injection H as <-.
  apply wait_for_wifi_keeps in Hwait.
  destruct Hwait as (Hp & Hl & Hr & Hrt & Hc & Hpo).
  unfold same_readings in *; world_simpl.
  rewrite Hp, Hl, Hrt, Hc, Hpo.
  unfold before_wifi; world_simpl.
  repeat split; try reflexivity; apply Hr.
Qed.

(** [setup] returns once the access point answers. *)
Lemma setup_returns (k fuel : nat) (power_on : Z -> Level) :
  wifi_connected env k = true -> (k < fuel)%nat ->
  exists w, exec (setup env fuel) (boot power_on) = Some w.
Proof.
  intros Hup Hfuel; unfold exec; rewrite setup_split.
  destruct (wait_for_wifi_returns k fuel (before_wifi (boot power_on)))
    as (w1 & ->); [ exact Hup | exact Hfuel | ].
  eexists; reflexivity.
Qed.

End Startup.


Section Invariants.

Variable cfg : Config.
Variable env : Environment.

(** The decision step leaves flag and pin in step when it finds them so. *)
Lemma controlLoad_keeps_synchronized (w w' : World) :
  synchronized w ->
  loadConnected w' =
    (if Level_eqb (pins w LOAD_RELAY_PIN) (pins w' LOAD_RELAY_PIN)
     then loadConnected w
     else Level_eqb (pins w' LOAD_RELAY_PIN) HIGH) ->
  synchronized w'.
Proof.
  unfold synchronized; intros Hs ->; rewrite Hs.
  destruct (pins w LOAD_RELAY_PIN), (pins w' LOAD_RELAY_PIN); reflexivity.
Qed.

(** At the top of every iteration: the flag mirrors the pin, the power is
    the product of the two readings, and the only route is [GET /]. *)
Lemma reachable_invariant (w : World) :
  reachable cfg env w ->
  synchronized w /\
  currentPower w = F32.mul (currentVoltage w) (currentCurrent w) /\
  routes w = [("/"%string, HTTP_GET)].
Proof.
  induction 1 as [power_on fuel w Hsetup | w w' Hreach IH Hloop].
  - apply setup_run in Hsetup.
    destruct Hsetup as (Hpin & Hflag & (Hv & Hc & Hp) & Hroutes & _).
    unfold synchronized; rewrite Hpin, Hflag, Hv, Hc, Hp, Hroutes.
    repeat split; vm_compute; reflexivity.
  - destruct IH as (Hsync & _ & Hroutes).
    destruct (loop_run cfg env w)
      as (w1 & w2 & decided & _ & _ & _ & Hrun & _ & _ & Hpow & Hpins &
          Hflag1 & _ & _ & (Hv & Hc & Hp) & Hroutes2 & _ & Hflag2 & _).
    unfold exec in Hloop; rewrite Hrun in Hloop.
    cbn [option_map snd] in Hloop; injection Hloop as <-.
    unfold synchronized; world_simpl.
    split; [ | split ].
    + apply (controlLoad_keeps_synchronized w1 w2); [ | exact Hflag2 ].
      unfold synchronized; rewrite Hpins, Hflag1; exact Hsync.
    + rewrite Hv, Hc, Hp; exact Hpow.
    + rewrite Hroutes2; exact Hroutes.
Qed.

End Invariants.

Lemma sampling_events_acquisition (samples : list Z) :
  forallb is_acquisition_event (sampling_events samples) = true.
Proof. induction samples as [ | v samples IH]; simpl; auto. Qed.

Lemma sampling_events_reads (samples : list Z) :
  List.length (filter is_analog_read (sampling_events samples)) =
  List.length samples.
Proof. induction samples as [ | v samples IH]; simpl; auto. Qed.

(** The relay levels a run of decisions leaves depend on the power figures
    alone. *)
Lemma decide_each_levels (cfg : Config) (powers : list F32.float) :
  forall w : World,
    eval (decide_each cfg powers) w =
    Some (map (fun p => if F32.geb p (MIN_POWER_TO_CONNECT_W cfg)
                        then HIGH else LOW) powers).
Proof.
  induction powers as [ | p powers IH]; intros w; [ reflexivity | ].
  unfold eval in *; cbn [decide_each map].
  unfold bind at 1, modify.
  destruct (controlLoad_run cfg (set_currentPower p w))
    as (w' & evs & Hrun & Hpin & _).
  unfold bind at 1; rewrite Hrun.
  unfold bind at 1, digitalRead.
  unfold bind at 1.
  specialize (IH w').
  destruct (decide_each cfg powers w') as [[ls w''] | ]; [ | discriminate ].
  cbn [option_map fst] in IH; injection IH as ->.
  unfold ret; cbn [option_map fst].
  rewrite Hpin; reflexivity.
Qed.


(* ================================================================== *)
(** * Part III: the claims *)
(* ================================================================== *)

Lemma load_state_high (w : World) :
  load_state w = Connected <-> pins w LOAD_RELAY_PIN = HIGH.
Proof. unfold load_state; destruct (pins w LOAD_RELAY_PIN); easy. Qed.

Lemma load_state_low (w : World) :
  load_state w = Disconnected <-> pins w LOAD_RELAY_PIN = LOW.
Proof. unfold load_state; destruct (pins w LOAD_RELAY_PIN); easy. Qed.

Lemma synchronized_iff (w : World) :
  synchronized w ->
  (loadConnected w = true <-> pins w LOAD_RELAY_PIN = HIGH).
Proof.
  unfold synchronized; intros ->.
  destruct (pins w LOAD_RELAY_PIN); split; intros H;
    try reflexivity; discriminate H.
Qed.

Lemma level_of_test_iff (l : Level) (b : bool) :
  l = (if b then HIGH else LOW) -> (l = HIGH <-> b = true).
Proof.
  intros ->; destruct b; split; intros H; try reflexivity; discriminate H.
Qed.

(** C1. From the Disconnected state the decision step, run on the powers
    5, 15, 9, 20 against the threshold 10 of the sketch, leaves the relay
    OFF, ON, OFF, ON.  In general the step always returns, the state it
    leaves is decided by the comparison of the power with the threshold
    alone (no hysteresis): Disconnected becomes Connected exactly when
    power >= threshold, and Connected becomes Disconnected exactly when
    power < threshold (power and threshold being numbers). *)
Theorem C1_relay_follows_threshold :
  (forall w : World,
     load_state w = Disconnected ->
     eval (decide_each sketch (map F32.of_int [5; 15; 9; 20])) w =
     Some [LOW; HIGH; LOW; HIGH]) /\
  (forall (cfg : Config) (w : World),
     F32.is_nan (currentPower w) = false ->
     F32.is_nan (MIN_POWER_TO_CONNECT_W cfg) = false ->
     exists w' : World,
       exec (controlLoad cfg) w = Some w' /\
       load_state w' =
         (if F32.geb (currentPower w) (MIN_POWER_TO_CONNECT_W cfg)
          then Connected else Disconnected) /\
       (load_state w = Disconnected ->
        (load_state w' = Connected <->
         F32.geb (currentPower w) (MIN_POWER_TO_CONNECT_W cfg) = true)) /\
       (load_state w = Connected ->
        (load_state w' = Disconnected <->
         F32.ltb (currentPower w) (MIN_POWER_TO_CONNECT_W cfg) = true))).
Proof.
  split.
  - intros w _. rewrite decide_each_levels. vm_compute. reflexivity.
  - intros cfg w Hp Ht.
    destruct (controlLoad_run cfg w) as (w' & evs & Hrun & Hpin & _).
    exists w'; unfold exec; rewrite Hrun.
    split; [ reflexivity | ].
    assert (Hstate : load_state w' =
                     (if F32.geb (currentPower w) (MIN_POWER_TO_CONNECT_W cfg)
                      then Connected else Disconnected)).
    { unfold load_state; rewrite Hpin.
      destruct (F32.geb _ _); reflexivity. }
    rewrite Hstate, (geb_ltb_complement _ _ Hp Ht).
    split; [ reflexivity | ].
    destruct (F32.ltb (currentPower w) (MIN_POWER_TO_CONNECT_W cfg));
      cbn [negb]; split; intros _; split; congruence.
Qed.

Lemma C1_relay_follows_threshold_witness :
  eval (decide_each sketch (map F32.of_int [5; 15; 9; 20]))
       (boot (fun _ => LOW)) = Some [LOW; HIGH; LOW; HIGH] /\
  exists w' : World,
    exec (controlLoad sketch)
         (set_currentPower (F32.of_int 15) (boot (fun _ => LOW))) = Some w' /\
    load_state w' = Connected.
Proof.
  split.
  - apply (proj1 C1_relay_follows_threshold); reflexivity.
  - destruct (proj2 C1_relay_follows_threshold sketch
                (set_currentPower (F32.of_int 15) (boot (fun _ => LOW)))
                eq_refl eq_refl) as (w' & Hrun & Hstate & _).
    exists w'; split; [ exact Hrun | exact Hstate ].
Defined.

(** C2. When [setup] returns the system is Disconnected: the relay pin is
    low and [loadConnected] is false.  From every reachable state the next
    iteration runs, and right after its decision step (and still at the end
    of the iteration) [loadConnected] is true iff the relay pin is high,
    which holds iff the current power is >= [MIN_POWER_TO_CONNECT_W]; the
    pin being the output latch, it reads back the last level written. *)
Theorem C2_flag_pin_threshold_synchronized (cfg : Config) (env : Environment) :
  (forall (power_on : Z -> Level) (fuel : nat) (w : World),
     exec (setup env fuel) (boot power_on) = Some w ->
     load_state w = Disconnected /\
     pins w LOAD_RELAY_PIN = LOW /\ loadConnected w = false) /\
  (forall w : World,
     reachable cfg env w ->
     (loadConnected w = true <-> pins w LOAD_RELAY_PIN = HIGH) /\
     exists w1 w2 w' : World,
       exec (server_handleClient cfg env;; acquire cfg env) w = Some w1 /\
       exec (controlLoad cfg) w1 = Some w2 /\
       exec (report;; delay 5000) w2 = Some w' /\
       exec (loop cfg env) w = Some w' /\
       (loadConnected w2 = true <-> pins w2 LOAD_RELAY_PIN = HIGH) /\
       (pins w2 LOAD_RELAY_PIN = HIGH <->
        F32.geb (currentPower w2) (MIN_POWER_TO_CONNECT_W cfg) = true) /\
       (loadConnected w' = true <-> pins w' LOAD_RELAY_PIN = HIGH) /\
       (pins w' LOAD_RELAY_PIN = HIGH <->
        F32.geb (currentPower w') (MIN_POWER_TO_CONNECT_W cfg) = true)).
Proof.
  split.
  - intros power_on fuel w Hsetup.
    apply setup_run in Hsetup; destruct Hsetup as (Hpin & Hflag & _).
    rewrite load_state_low; auto.
  - intros w Hreach.
    destruct (reachable_invariant cfg env w Hreach) as (Hsync & _).
    split; [ apply synchronized_iff, Hsync | ].
    destruct (loop_run cfg env w)
      as (w1 & w2 & decided & Hh & Ha & Hc & Hrun & _ & _ & _ & Hpins &
          Hflag1 & _ & _ & (_ & _ & Hp) & _ & Hpin2 & Hflag2 & _).
    assert (Hsync2 : synchronized w2).
    { apply (controlLoad_keeps_synchronized w1 w2); [ | exact Hflag2 ].
      unfold synchronized; rewrite Hpins, Hflag1; exact Hsync. }
    pose proof (synchronized_iff w2 Hsync2) as Hiff1.
    assert (Hiff2 : pins w2 LOAD_RELAY_PIN = HIGH <->
                    F32.geb (currentPower w2) (MIN_POWER_TO_CONNECT_W cfg) = true).
    { rewrite Hp; apply level_of_test_iff, Hpin2. }
    eexists w1, w2, _.
    split; [ unfold exec, bind; rewrite Hh, Ha; reflexivity | ].
    split; [ unfold exec; rewrite Hc; reflexivity | ].
    split.
    { unfold exec, bind; rewrite report_run.
      unfold delay, emit, modify; world_simpl.
      rewrite <- app_assoc; reflexivity. }
    split; [ unfold exec; rewrite Hrun; reflexivity | ].
    world_simpl; auto.
Qed.

Lemma C2_flag_pin_threshold_synchronized_witness :
  (load_state (first_world (steady 2048)) = Disconnected /\
   pins (first_world (steady 2048)) LOAD_RELAY_PIN = LOW /\
   loadConnected (first_world (steady 2048)) = false) /\
  (loadConnected (first_world (steady 2048)) = true <->
   pins (first_world (steady 2048)) LOAD_RELAY_PIN = HIGH).
Proof.
  assert (Hsetup : exec (setup (steady 2048) 1) (boot (fun _ => HIGH)) =
                   Some (first_world (steady 2048)))
    by (vm_compute; reflexivity).
  split.
  - exact (proj1 (C2_flag_pin_threshold_synchronized sketch (steady 2048))
             (fun _ => HIGH) 1%nat _ Hsetup).
  - exact (proj1 (proj2 (C2_flag_pin_threshold_synchronized sketch (steady 2048))
                    _ (reach_setup sketch (steady 2048) _ _ _ Hsetup))).
Defined.

(** C3. In every iteration of [loop] the acquisition stores the voltage
    and the current converted from the samples of that very iteration and
    then their product as the power; the decision compares that product
    with the threshold, and the diagnostic line of the tick and the page
    served from the state the iteration leaves show the same three values:
    power == voltage * current, never a product across ticks. *)
Theorem C3_power_is_product_of_same_tick
        (cfg : Config) (env : Environment) (w : World) :
  exists w1 w2 w' : World,
    exec (server_handleClient cfg env;; acquire cfg env) w = Some w1 /\
    exec (controlLoad cfg) w1 = Some w2 /\
    exec (loop cfg env) w = Some w' /\
    currentVoltage w1 =
      Spec.voltage_conversion cfg
        (adc env VOLTAGE_PIN (conversions w) mod 2 ^ 16) /\
    currentCurrent w1 =
      Spec.current_conversion cfg
        (next_samples env CURRENT_PIN (S (conversions w)) 20) /\
    currentPower w1 = F32.mul (currentVoltage w1) (currentCurrent w1) /\
    same_readings w1 w2 /\ same_readings w1 w' /\
    currentPower w' = F32.mul (currentVoltage w') (currentCurrent w') /\
    pins w2 LOAD_RELAY_PIN =
      (if F32.geb (F32.mul (currentVoltage w1) (currentCurrent w1))
                  (MIN_POWER_TO_CONNECT_W cfg)
       then HIGH else LOW) /\
    In (SerialOut
          (Spec.status_line (currentVoltage w1) (currentCurrent w1)
             (F32.mul (currentVoltage w1) (currentCurrent w1))
             (loadConnected w2)))
       (trace w') /\
    eval (getPage cfg) w' =
      Some (Spec.status_page (currentVoltage w1) (currentCurrent w1)
              (F32.mul (currentVoltage w1) (currentCurrent w1))
              (loadConnected w') (MIN_POWER_TO_CONNECT_W cfg)).
Proof.
  destruct (loop_run cfg env w)
    as (w1 & w2 & decided & Hh & Ha & Hc & Hrun & Hv & Hi & Hp & _ & _ & _ &
        _ & (Hv2 & Hi2 & Hp2) & _ & Hpin2 & _).
  eexists w1, w2, _.
  split; [ unfold exec, bind; rewrite Hh, Ha; reflexivity | ].
  split; [ unfold exec; rewrite Hc; reflexivity | ].
  split; [ unfold exec; rewrite Hrun; reflexivity | ].
  split; [ exact Hv | ].
  split; [ exact Hi | ].
  split; [ exact Hp | ].
  split; [ unfold same_readings; auto | ].
  split; [ unfold same_readings; world_simpl; auto | ].
  world_simpl.
  split; [ rewrite Hv2, Hi2, Hp2; exact Hp | ].
  split; [ rewrite Hpin2, Hp; reflexivity | ].
  split.
  - apply in_or_app; right; left.
    rewrite Hv2, Hi2, Hp2, Hp; reflexivity.
  - unfold eval; rewrite getPage_run; world_simpl.
    rewrite Hv2, Hi2, Hp2, Hp; reflexivity.
Qed.


(** C4 (the sketch does not do this).  Twenty samples equal to
    [ZERO_CURRENT_OFFSET], whose average is the offset itself, do not read
    as a current of 0: [readCurrent] ignores the constant, subtracts 1.65 V
    from a sense voltage of about 1.6504 V and returns about 0.00218 A. *)
Theorem C4_zero_offset_reading_is_not_zero (w : World) :
  Spec.average
    (next_samples (steady (ZERO_CURRENT_OFFSET sketch)) CURRENT_PIN
       (conversions w) 20) = ZERO_CURRENT_OFFSET sketch /\
  eval (readCurrent sketch (steady (ZERO_CURRENT_OFFSET sketch))) w =
    Some (S754_finite false 9357146 (-32)) /\
  F32.eqb (S754_finite false 9357146 (-32)) (S754_zero false) = false /\
  F32.within (S754_finite false 9357146 (-32))
             (2179 # 1000000) (1 # 1000000) = true.
Proof.
  split; [ vm_compute; reflexivity | ].
  split; [ | split; vm_compute; reflexivity ].
  unfold eval; rewrite readCurrent_run; cbn [option_map fst].
  vm_compute; reflexivity.
Qed.

(** C5. The current [readCurrent] returns does not depend on
    [ZERO_CURRENT_OFFSET]: with any two values of the constant and the same
    samples the function returns the same result and leaves the same world,
    because the offset it subtracts is the mid-scale [ADC_MAX_VOLTAGE / 2.0]. *)
Theorem C5_current_independent_of_zero_offset
        (cfg : Config) (env : Environment) (w : World) (z1 z2 : Z) :
  readCurrent (with_zero_offset z1 cfg) env w =
  readCurrent (with_zero_offset z2 cfg) env w /\
  eval (readCurrent (with_zero_offset z1 cfg) env) w =
    Some (F32.abs
            (F32.div
               (F32.sub
                  (Spec.sense_voltage cfg
                     (Spec.average
                        (next_samples env CURRENT_PIN (conversions w) 20)))
                  (Spec.mid_scale cfg))
               (CURRENT_SENSITIVITY cfg))).
Proof.
  unfold eval; rewrite !readCurrent_run.
  unfold Spec.current_conversion, Spec.sense_voltage, Spec.mid_scale.
  cbn [with_zero_offset ADC_RESOLUTION ADC_MAX_VOLTAGE CURRENT_SENSITIVITY
       option_map fst].
  split; reflexivity.
Qed.

(** A current computed with the constants of the sketch is a number. *)
Lemma current_conversion_not_nan (samples : list Z) :
  F32.is_nan
    (F32.div
       (F32.sub (Spec.sense_voltage sketch (Spec.average samples))
                (Spec.mid_scale sketch))
       (CURRENT_SENSITIVITY sketch)) = false.
Proof.
  destruct sketch_constants as (_ & Hmax & Hres & Hsens & _ & Hmid).
  unfold Spec.sense_voltage; rewrite Hmax, Hres, Hsens, Hmid.
  apply SFdiv_finite_not_nan, SFsub_finite_not_nan, SFmul_finite_not_nan,
    SFdiv_finite_not_nan, binary_normalize_not_nan.
Qed.

(** C6. For every twenty samples [readCurrent] returns the magnitude of
    (average / resolution * reference - mid-scale offset) / sensitivity,
    the average being the integer quotient of the sum by 20; the current it
    returns is a number and is >= 0. *)
Theorem C6_current_is_magnitude_of_scaled_average
        (env : Environment) (w : World) :
  exists (c : F32.float) (w' : World),
    readCurrent sketch env w = Some (c, w') /\
    List.length (next_samples env CURRENT_PIN (conversions w) 20) = 20%nat /\
    c = Spec.current_conversion sketch
          (next_samples env CURRENT_PIN (conversions w) 20) /\
    Spec.current_conversion sketch
      (next_samples env CURRENT_PIN (conversions w) 20) =
      F32.abs
        (F32.div
           (F32.sub
              (F32.mul
                 (F32.div
                    (F32.of_int
                       (Z.quot
                          (fold_left Z.add
                             (next_samples env CURRENT_PIN (conversions w) 20) 0)
                          20))
                    (F32.of_int (ADC_RESOLUTION sketch)))
                 (ADC_MAX_VOLTAGE sketch))
              (Spec.mid_scale sketch))
           (CURRENT_SENSITIVITY sketch)) /\
    F32.is_nan c = false /\
    F32.geb c (S754_zero false) = true.
Proof.
  rewrite readCurrent_run.
  eexists _, _; split; [ reflexivity | ].
  split; [ apply next_samples_length | ].
  split; [ reflexivity | ].
  split.
  { unfold Spec.current_conversion, Spec.sense_voltage, Spec.average,
      Spec.total.
    rewrite next_samples_length; reflexivity. }
  pose proof (current_conversion_not_nan
                (next_samples env CURRENT_PIN (conversions w) 20)) as Hnan.
  unfold Spec.current_conversion; split.
  - destruct (F32.div _ _); [ reflexivity .. | discriminate | reflexivity ].
  - apply abs_nonneg, Hnan.
Qed.

(** The voltage conversion rises at every step of the ADC range. *)
Lemma voltage_conversion_steps :
  forallb
    (fun s =>
       F32.ltb (Spec.voltage_conversion sketch s)
               (Spec.voltage_conversion sketch (s + 1)) &&
       F32.nonneg_finite (Spec.voltage_conversion sketch s) &&
       F32.nonneg_finite (Spec.voltage_conversion sketch (s + 1)))
    (map Z.of_nat (seq 0 4095)) = true.
Proof. vm_compute. reflexivity. Qed.

(** C7. [readVoltage] returns sample / resolution * reference_voltage *
    divider_ratio; over the raw samples 0 .. resolution the conversion is
    strictly increasing, and it is 0 at sample 0. *)
Theorem C7_voltage_conversion_monotone :
  (forall (cfg : Config) (env : Environment) (w : World),
     eval (readVoltage cfg env) w =
     Some (F32.mul
             (F32.mul
                (F32.div
                   (F32.of_int (adc env VOLTAGE_PIN (conversions w) mod 2 ^ 16))
                   (F32.of_int (ADC_RESOLUTION cfg)))
                (ADC_MAX_VOLTAGE cfg))
             (VOLTAGE_SCALE_FACTOR cfg)) /\
     eval (readVoltage cfg env) w =
     Some (Spec.voltage_conversion cfg
             (adc env VOLTAGE_PIN (conversions w) mod 2 ^ 16))) /\
  (forall s1 s2 : Z,
     0 <= s1 -> s1 < s2 -> s2 <= ADC_RESOLUTION sketch ->
     F32.ltb (Spec.voltage_conversion sketch s1)
             (Spec.voltage_conversion sketch s2) = true) /\
  Spec.voltage_conversion sketch 0 = S754_zero false.
Proof.
  split; [ intros cfg env w; split; reflexivity | ].
  split; [ | vm_compute; reflexivity ].
  change (ADC_RESOLUTION sketch) with 4095.
  apply (rising_chain (Spec.voltage_conversion sketch) 4095).
  intros s Hs.
  pose proof (forallb_range _ 4095 voltage_conversion_steps s) as H.
  cbv beta in H.
  rewrite !andb_true_iff in H.
  destruct H as ((H1 & H2) & H3); [ lia | auto ].
Qed.

Lemma C7_voltage_conversion_monotone_witness :
  F32.ltb (Spec.voltage_conversion sketch 1000)
          (Spec.voltage_conversion sketch 3000) = true.
Proof.
  apply (proj1 (proj2 C7_voltage_conversion_monotone)); vm_compute; congruence.
Defined.


(** C8, the figures as the sketch computes them.  With resolution 4095,
    reference 3.3 and divider 4.0 the raw sample 2048 converts to 6.602 V
    (to three decimals); with a current of 2.0 A the power is 13.203 W,
    above the 10.0 W threshold, and the decision step takes the relay from
    Disconnected to Connected. *)
Theorem C8_end_to_end_example :
  eval (readVoltage sketch (steady 2048)) (boot (fun _ => LOW)) =
    Some (Spec.voltage_conversion sketch 2048) /\
  F32.within (Spec.voltage_conversion sketch 2048)
             (6602 # 1000) (5 # 10000) = true /\
  currentPower example_tick =
    F32.mul (currentVoltage example_tick) (currentCurrent example_tick) /\
  F32.within (currentCurrent example_tick) 2 0 = true /\
  F32.within (currentPower example_tick) (13203 # 1000) (5 # 10000) = true /\
  F32.gtb (currentPower example_tick) (MIN_POWER_TO_CONNECT_W sketch) = true /\
  F32.within (MIN_POWER_TO_CONNECT_W sketch) 10 0 = true /\
  load_state example_tick = Disconnected /\
  exists w' : World,
    exec (controlLoad sketch) example_tick = Some w' /\
    load_state w' = Connected /\ loadConnected w' = true.
Proof.
  repeat (split; [ vm_compute; reflexivity | ]).
  destruct (controlLoad_run sketch example_tick)
    as (w' & evs & Hrun & Hpin & _ & Hflag & _).
  exists w'; unfold exec; rewrite Hrun.
  split; [ reflexivity | ].
  assert (Hhigh : pins w' LOAD_RELAY_PIN = HIGH) by exact Hpin.
  split; [ apply load_state_high, Hhigh | ].
  rewrite Hflag, Hhigh; reflexivity.
Qed.

(** C8 as stated fails: the voltage is not 6.606 V to the three decimals
    given (it is more than 0.004 V below), and the power is not 13.21 W to
    the two decimals given. *)
Lemma C8_stated_figures_are_off :
  F32.within (Spec.voltage_conversion sketch 2048)
             (6606 # 1000) (5 # 10000) = false /\
  F32.within (Spec.voltage_conversion sketch 2048)
             (6606 # 1000) (4 # 1000) = false /\
  F32.within (F32.mul (Spec.voltage_conversion sketch 2048) (F32.literal 2 1))
             (1321 # 100) (5 # 1000) = false.
Proof. vm_compute. repeat split; reflexivity. Qed.



(* ================================================================== *)
(** * Part IV: further properties of the sketch *)
(* ================================================================== *)

(** ** The decision step in closed form *)

Lemma controlLoad_exact (cfg : Config) (w : World) :
  controlLoad cfg w =
  Some (tt,
        if Level_eqb (pins w LOAD_RELAY_PIN) (desired_level cfg w) then w
        else
          set_trace
            (trace w ++
             [DigitalWrite LOAD_RELAY_PIN (desired_level cfg w);
              SerialOut (switch_line cfg w)])
            (set_loadConnected (Level_eqb (desired_level cfg w) HIGH)
               (set_pins
                  (fun p => if p =? LOAD_RELAY_PIN
                            then desired_level cfg w else pins w p)
                  w))).
Proof.
  unfold controlLoad, switch_line, desired_level, bind, get, digitalRead.
  destruct (F32.geb (currentPower w) (MIN_POWER_TO_CONNECT_W cfg));
    destruct (pins w LOAD_RELAY_PIN); cbn [Level_eqb]; try reflexivity.
  all: unfold Serial_printf, lift; rewrite ?format_load_on, ?format_load_off;
    cbv beta iota delta [digitalWrite bind modify emit ret]; world_simpl.
  all: rewrite <- app_assoc; reflexivity.
Qed.

(** ** [setup] in full *)

Section StartupTrace.

Variable env : Environment.

(** The wait returns exactly at the first poll that finds the link up,
    after one 500 ms delay and one dot per failed poll. *)
Lemma wait_for_wifi_trace (fuel : nat) :
  forall (w w' : World),
    wait_for_wifi env fuel w = Some (tt, w') ->
    exists k : nat,
      (k < fuel)%nat /\
      wifi_connected env (wifi_polls w + k) = true /\
      (forall i, (i < k)%nat -> wifi_connected env (wifi_polls w + i) = false) /\
      trace w' = trace w ++ waiting_events k /\
      wifi_polls w' = (wifi_polls w + S k)%nat.
Proof.
  induction fuel as [ | fuel IH]; intros w w' H; [ discriminate | ].
  cbn [wait_for_wifi] in H.
  unfold bind at 1, WiFi_status_connected in H.
  destruct (wifi_connected env (wifi_polls w)) eqn:Hup.
  - injection H as <-; exists 0%nat; world_simpl.
    rewrite Nat.add_0_r, app_nil_r.
    repeat split; auto; try lia.
  - unfold delay, Serial_print, emit, modify, bind at 1 in H.
    unfold bind at 1 in H.
    apply IH in H; destruct H as (k & Hk & Hlast & Hbefore & Htr & Hpolls).
    revert Hlast Hbefore Htr Hpolls; world_simpl; intros.
    exists (S k); split; [ lia | ].
    split; [ rewrite Nat.add_succ_r; exact Hlast | ].
    split.
    { intros [ | i] Hi; [ rewrite Nat.add_0_r; exact Hup | ].
      rewrite Nat.add_succ_r; apply Hbefore; lia. }
    split; [ | lia ].
    rewrite Htr; unfold waiting_events; cbn [repeat List.concat].
    rewrite <- !app_assoc; reflexivity.
Qed.

End StartupTrace.

Lemma total_delay_app (a b : list Event) :
  total_delay (a ++ b) = total_delay a + total_delay b.
Proof.
  induction a as [ | e a IH]; [ reflexivity | ].
  destruct e; cbn [app total_delay]; rewrite IH; lia.
Qed.

Lemma relay_writes_app (a b : list Event) :
  relay_writes (a ++ b) = relay_writes a ++ relay_writes b.
Proof.
  induction a as [ | e a IH]; [ reflexivity | ].
  destruct e; cbn [app relay_writes]; try exact IH.
  destruct (pin =? LOAD_RELAY_PIN); [ cbn [app]; rewrite IH | ]; auto.
Qed.

Lemma writes_relay_only_app (a b : list Event) :
  writes_relay_only (a ++ b) = writes_relay_only a && writes_relay_only b.
Proof. apply forallb_app. Qed.

Lemma waiting_events_quiet (k : nat) :
  total_delay (waiting_events k) = 500 * Z.of_nat k /\
  relay_writes (waiting_events k) = [] /\
  writes_relay_only (waiting_events k) = true.
Proof.
  unfold waiting_events; induction k as [ | k (IH1 & IH2 & IH3)];
    [ repeat split | ].
  cbn [repeat List.concat app total_delay relay_writes writes_relay_only
       forallb andb].
  repeat split; auto; lia.
Qed.

(** X1. [setup] has no way out of the wait for the access point: with the
    link down at every poll it never returns, whatever the fuel, so [loop]
    and with it the load control never start. *)
Theorem setup_blocks_while_offline
        (env : Environment) (fuel : nat) (w : World) :
  (forall n, wifi_connected env n = false) ->
  setup env fuel w = None.
Proof.
  intros Hdown; rewrite setup_split, wait_for_wifi_blocks; auto.
Qed.

Lemma setup_blocks_while_offline_witness :
  setup offline 1000 (boot (fun _ => HIGH)) = None.
Proof.
  apply (setup_blocks_while_offline offline 1000 (boot (fun _ => HIGH))).
  intros n; reflexivity.
Defined.

(** X2. When [setup] returns, it returned at the first poll [k] that found
    the link up: it drove the relay low before it called [WiFi.begin],
    waited 500 ms and printed one dot per failed poll, registered the
    single route [GET /], and left every other pin at its power-on level
    and [loadConnected] false. *)
Theorem setup_exact
        (env : Environment) (power_on : Z -> Level) (fuel : nat) (w : World) :
  exec (setup env fuel) (boot power_on) = Some w ->
  exists k : nat,
    (k < fuel)%nat /\
    wifi_connected env k = true /\
    (forall i, (i < k)%nat -> wifi_connected env i = false) /\
    trace w = setup_events env k /\
    total_delay (trace w) = 500 * Z.of_nat k /\
    relay_writes (trace w) = [LOW] /\
    routes w = [("/"%string, HTTP_GET)] /\
    (forall p, pins w p = if p =? LOAD_RELAY_PIN then LOW else power_on p) /\
    loadConnected w = false /\
    wifi_polls w = S k.
Proof.
  unfold exec; rewrite setup_split.
  destruct (wait_for_wifi env fuel (before_wifi (boot power_on)))
    as [[[] w1] | ] eqn:Hwait; [ | discriminate ].
  cbn [option_map snd]; intros H; injection H as <-.
  pose proof (wait_for_wifi_keeps env fuel _ _ Hwait)
    as (Hp & Hl & _ & Hrt & _).
  apply wait_for_wifi_trace in Hwait.
  destruct Hwait as (k & Hk & Hup & Hbefore & Htr & Hpolls).
  exists k; world_simpl.
  rewrite Htr, Hp, Hl, Hrt, Hpolls.
  unfold before_wifi; world_simpl.
  change (trace (boot power_on)) with (@nil Event); cbn [app].
  destruct (waiting_events_quiet k) as (Hd & Hw & _).
  split; [ exact Hk | ].
  split; [ exact Hup | ].
  split; [ exact Hbefore | ].
  split; [ unfold setup_events; rewrite <- ?app_assoc; reflexivity | ].
  split.
  { cbn [total_delay]; rewrite !total_delay_app, Hd; cbn [total_delay]; lia. }
  split.
  { cbn [relay_writes]; rewrite !relay_writes_app, Hw; reflexivity. }
  repeat split; reflexivity.
Qed.

Lemma setup_exact_witness :
  exists w : World,
    exec (setup (link_up_at 2) 5) (boot (fun _ => HIGH)) = Some w /\
    total_delay (trace w) = 1000.
Proof.
  destruct (setup_returns (link_up_at 2) 2 5 (fun _ => HIGH) eq_refl)
    as (w & Hw); [ lia | ].
  exists w; split; [ exact Hw | ].
  destruct (setup_exact (link_up_at 2) (fun _ => HIGH) 5 w Hw)
    as (k & _ & Hup & Hbefore & _ & Hd & _).
  assert (Hk : k = 2%nat).
  { destruct k as [ | [ | [ | k]]]; try discriminate Hup; [ reflexivity | ].
    specialize (Hbefore 2%nat ltac:(lia)); discriminate Hbefore. }
  rewrite Hd, Hk; reflexivity.
Defined.

(** ** The decision step acts on a change only *)

Lemma Level_eqb_refl (l : Level) : Level_eqb l l = true.
Proof. destruct l; reflexivity. Qed.

Lemma Level_eqb_eq (a b : Level) : Level_eqb a b = true <-> a = b.
Proof. destruct a, b; split; intros H; try reflexivity; discriminate H. Qed.

(** What the relay and the pins look like when [setup] returns. *)
Lemma setup_relay_facts
      (env : Environment) (power_on : Z -> Level) (fuel : nat) (w : World) :
  exec (setup env fuel) (boot power_on) = Some w ->
  relay_writes (trace w) = [LOW] /\
  writes_relay_only (trace w) = true /\
  (forall p, pins w p = if p =? LOAD_RELAY_PIN then LOW else power_on p).
Proof.
  unfold exec; rewrite setup_split.
  destruct (wait_for_wifi env fuel (before_wifi (boot power_on)))
    as [[[] w1] | ] eqn:Hwait; [ | discriminate ].
  cbn [option_map snd]; intros H; injection H as <-.
  pose proof (wait_for_wifi_keeps env fuel _ _ Hwait) as (Hp & _).
  apply wait_for_wifi_trace in Hwait.
  destruct Hwait as (k & _ & _ & _ & Htr & _).
  destruct (waiting_events_quiet k) as (_ & Hw & Hq).
  world_simpl; rewrite Htr, Hp.
  unfold before_wifi; world_simpl.
  change (trace (boot power_on)) with (@nil Event); cbn [app].
  split.
  { cbn [relay_writes]; rewrite !relay_writes_app, Hw; reflexivity. }
  split.
  { unfold writes_relay_only in *; cbn [forallb andb].
    rewrite forallb_app, Hq; reflexivity. }
  intros p; reflexivity.
Qed.

(** X3. The decision step does nothing at all when the relay pin already
    has the level the power calls for: no pin write, no serial line, no
    change of [loadConnected] (even one that disagrees with the pin).
    Hence running it twice in a row is running it once. *)
Theorem controlLoad_acts_on_change_only (cfg : Config) (w : World) :
  (pins w LOAD_RELAY_PIN = desired_level cfg w ->
   controlLoad cfg w = Some (tt, w)) /\
  (controlLoad cfg;; controlLoad cfg) w = controlLoad cfg w.
Proof.
  split.
  - intros H; rewrite controlLoad_exact, H, Level_eqb_refl; reflexivity.
  - unfold bind; rewrite (controlLoad_exact cfg w).
    destruct (Level_eqb (pins w LOAD_RELAY_PIN) (desired_level cfg w)) eqn:E.
    + rewrite controlLoad_exact, E; reflexivity.
    + rewrite controlLoad_exact.
      unfold desired_level at 1 2; world_simpl.
      fold (desired_level cfg w).
      rewrite Z.eqb_refl, Level_eqb_refl; reflexivity.
Qed.

Lemma controlLoad_acts_on_change_only_witness :
  controlLoad sketch (boot (fun _ => LOW)) = Some (tt, boot (fun _ => LOW)).
Proof.
  apply (proj1 (controlLoad_acts_on_change_only sketch (boot (fun _ => LOW)))).
  reflexivity.
Defined.

(** X4. When the pin differs from the level the power calls for, the
    decision step writes that level to the relay pin once, sets
    [loadConnected] to match it, prints the one line that names the power
    and the threshold, and leaves the readings and every other pin as
    they were. *)
Theorem controlLoad_switches_once (cfg : Config) (w : World) :
  pins w LOAD_RELAY_PIN <> desired_level cfg w ->
  exists w' : World,
    controlLoad cfg w = Some (tt, w') /\
    trace w' =
      trace w ++
      [DigitalWrite LOAD_RELAY_PIN (desired_level cfg w);
       SerialOut (switch_line cfg w)] /\
    pins w' LOAD_RELAY_PIN = desired_level cfg w /\
    (forall p, p <> LOAD_RELAY_PIN -> pins w' p = pins w p) /\
    (loadConnected w' = true <-> desired_level cfg w = HIGH) /\
    same_readings w w' /\ same_inputs w w'.
Proof.
  intros Hne; rewrite controlLoad_exact.
  destruct (Level_eqb (pins w LOAD_RELAY_PIN) (desired_level cfg w)) eqn:E.
  { apply Level_eqb_eq in E; contradiction. }
  eexists; split; [ reflexivity | ].
  unfold same_readings, same_inputs; world_simpl.
  rewrite Z.eqb_refl.
  split; [ reflexivity | ].
  split; [ reflexivity | ].
  split.
  { intros p Hp; destruct (Z.eqb_spec p LOAD_RELAY_PIN);
      [ contradiction | reflexivity ]. }
  split; [ apply Level_eqb_eq | ].
  repeat split; reflexivity.
Qed.

Lemma controlLoad_switches_once_witness :
  exists w' : World,
    controlLoad sketch example_tick = Some (tt, w') /\
    trace w' =
      [DigitalWrite LOAD_RELAY_PIN HIGH;
       SerialOut ("LOAD ON: Power 13.20 W (above 10.0 W threshold)." ++ nl)].
Proof.
  destruct (controlLoad_switches_once sketch example_tick)
    as (w' & Hrun & Htr & _).
  - vm_compute; discriminate.
  - exists w'; split; [ exact Hrun | ].
    rewrite Htr; vm_compute; reflexivity.
Defined.

Lemma geb_refl (x : F32.float) : F32.is_nan x = false -> F32.geb x x = true.
Proof.
  unfold F32.geb, SFleb; destruct x as [s | s | | s m e]; simpl;
    intros H; try reflexivity; try discriminate H.
  - destruct s; reflexivity.
  - rewrite Z.compare_refl, Pos.compare_cont_refl; destruct s; reflexivity.
Qed.

(** X5. The threshold itself connects, and a power that is not a number
    disconnects: with the power exactly equal to a (numeric) threshold the
    decision step leaves the relay pin high, and with a NaN power it leaves
    the pin low. *)
Theorem controlLoad_boundary (cfg : Config) (w : World) :
  (F32.is_nan (MIN_POWER_TO_CONNECT_W cfg) = false ->
   currentPower w = MIN_POWER_TO_CONNECT_W cfg ->
   exists w', controlLoad cfg w = Some (tt, w') /\ load_state w' = Connected) /\
  (F32.is_nan (currentPower w) = true ->
   exists w', controlLoad cfg w = Some (tt, w') /\ load_state w' = Disconnected).
Proof.
  destruct (controlLoad_run cfg w) as (w' & evs & Hrun & Hpin & _).
  split.
  - intros Hnum Heq; exists w'; split; [ exact Hrun | ].
    apply load_state_high; rewrite Hpin, Heq, geb_refl; auto.
  - intros Hnan; exists w'; split; [ exact Hrun | ].
    apply load_state_low; rewrite Hpin.
    destruct (currentPower w); try discriminate Hnan.
    unfold F32.geb, SFleb.
    destruct (MIN_POWER_TO_CONNECT_W cfg); reflexivity.
Qed.

Lemma controlLoad_boundary_witness :
  (exists w',
     controlLoad sketch
       (set_currentPower (F32.literal 10 1) (boot (fun _ => LOW))) =
     Some (tt, w') /\ load_state w' = Connected) /\
  (exists w',
     controlLoad sketch (set_currentPower S754_nan (boot (fun _ => HIGH))) =
     Some (tt, w') /\ load_state w' = Disconnected).
Proof.
  split.
  - apply (proj1 (controlLoad_boundary sketch
                    (set_currentPower (F32.literal 10 1) (boot (fun _ => LOW)))));
      reflexivity.
  - apply (proj2 (controlLoad_boundary sketch
                    (set_currentPower S754_nan (boot (fun _ => HIGH)))));
      reflexivity.
Defined.

(** ** Iterations of [loop] *)

Section Iterations.

Variable cfg : Config.
Variable env : Environment.

(** One iteration with the decision in closed form. *)
Lemma loop_decision (w : World) :
  exists w1 : World,
    pins w1 = pins w /\ loadConnected w1 = loadConnected w /\
    routes w1 = routes w /\
    conversions w1 = (conversions w + 21)%nat /\ polls w1 = S (polls w) /\
    wifi_polls w1 = wifi_polls w /\
    trace w1 =
      trace w ++ served cfg env w ++
      AnalogRead VOLTAGE_PIN (adc env VOLTAGE_PIN (conversions w) mod 2 ^ 16)
      :: sampling_events (next_samples env CURRENT_PIN (S (conversions w)) 20) /\
    currentVoltage w1 =
      Spec.voltage_conversion cfg
        (adc env VOLTAGE_PIN (conversions w) mod 2 ^ 16) /\
    currentCurrent w1 =
      Spec.current_conversion cfg
        (next_samples env CURRENT_PIN (S (conversions w)) 20) /\
    currentPower w1 = F32.mul (currentVoltage w1) (currentCurrent w1) /\
    exists w2 : World,
      controlLoad cfg w1 = Some (tt, w2) /\
      loop cfg env w =
        Some (tt,
              set_trace
                (trace w2 ++
                 [SerialOut (Spec.status_line (currentVoltage w2)
                               (currentCurrent w2) (currentPower w2)
                               (loadConnected w2));
                  Delay 5000])
                w2).
Proof.
  destruct (loop_run cfg env w)
    as (w1 & w2 & decided & _ & Hacq & Hctl & Hrun & Hv & Hc & Hp & Hpins &
        Hflag & Hroutes & Htr & _).
  exists w1.
  rewrite acquire_run in Hacq; injection Hacq as Hw1.
  split; [ exact Hpins | ].
  split; [ exact Hflag | ].
  split; [ exact Hroutes | ].
  split; [ rewrite <- Hw1; reflexivity | ].
  split; [ rewrite <- Hw1; reflexivity | ].
  split; [ rewrite <- Hw1; reflexivity | ].
  split; [ exact Htr | ].
  split; [ exact Hv | ].
  split; [ exact Hc | ].
  split; [ exact Hp | ].
  exists w2; split; [ exact Hctl | exact Hrun ].
Qed.

(** A property every iteration preserves holds after any number of them. *)
Lemma loops_invariant (P : World -> Prop) :
  (forall w w', P w -> exec (loop cfg env) w = Some w' -> P w') ->
  forall (n : nat) (w w' : World),
    P w -> exec (loops cfg env n) w = Some w' -> P w'.
Proof.
  intros Hstep n; induction n as [ | n IH]; intros w w' Hw Hrun.
  - injection Hrun as <-; exact Hw.
  - unfold exec in Hrun; cbn [loops] in Hrun; unfold bind in Hrun.
    destruct (loop cfg env w) as [[[] w1] | ] eqn:Hloop; [ | discriminate ].
    apply (IH w1 w'); [ | exact Hrun ].
    apply (Hstep w w1 Hw); unfold exec; rewrite Hloop; reflexivity.
Qed.

Lemma loop_returns (w : World) : exists w', exec (loop cfg env) w = Some w'.
Proof.
  destruct (loop_run cfg env w) as (w1 & w2 & d & _ & _ & _ & Hrun & _).
  eexists; unfold exec; rewrite Hrun; reflexivity.
Qed.

Lemma loops_returns (n : nat) :
  forall w : World, exists w', exec (loops cfg env n) w = Some w'.
Proof.
  induction n as [ | n IH]; intros w; [ eexists; reflexivity | ].
  destruct (loop_returns w) as (w1 & H1).
  destruct (IH w1) as (w' & H').
  exists w'; unfold exec in *; cbn [loops]; unfold bind.
  destruct (loop cfg env w) as [[[] w1'] | ]; [ | discriminate ].
  injection H1 as ->; exact H'.
Qed.

End Iterations.

(** ** Readings over the whole range of the ADC *)

Lemma holds_from_spec (P : Z -> bool) (n : nat) :
  forall z : Z,
    holds_from P z n = true ->
    forall i : Z, z <= i < z + Z.of_nat n -> P i = true.
Proof.
  induction n as [ | n IH]; intros z H i Hi; [ lia | ].
  cbn [holds_from] in H; apply andb_true_iff in H; destruct H as (Hz & Hrest).
  destruct (Z.eq_dec i z) as [-> | Hne]; [ exact Hz | ].
  apply (IH (z + 1) Hrest); lia.
Qed.

Lemma voltage_range_check :
  holds_from
    (fun s => F32.nonneg_finite (Spec.voltage_conversion sketch s))
    0 (Z.to_nat 65536) = true.
Proof. vm_compute. reflexivity. Qed.

Lemma current_range_check :
  holds_from
    (fun a =>
       let c := current_of_average a in
       F32.nonneg_finite c && F32.gtb c (S754_zero false) &&
       F32.geb c least_current)
    0 (Z.to_nat 65536) = true.
Proof. vm_compute. reflexivity. Qed.

Lemma total_bounds (samples : list Z) :
  Forall (fun v => 0 <= v < 2 ^ 16) samples ->
  forall acc : Z,
    acc <= fold_left Z.add samples acc
        <= acc + (2 ^ 16 - 1) * Z.of_nat (List.length samples).
Proof.
  induction 1 as [ | v samples Hv Hs IH]; intros acc; cbn [fold_left List.length].
  - lia.
  - specialize (IH (acc + v)); lia.
Qed.

Lemma average_range (samples : list Z) :
  Forall (fun v => 0 <= v < 2 ^ 16) samples ->
  List.length samples = 20%nat ->
  0 <= Spec.average samples < 2 ^ 16.
Proof.
  intros Hs Hlen; unfold Spec.average, Spec.total.
  pose proof (total_bounds samples Hs 0) as Hb.
  rewrite Hlen in *; change (Z.of_nat 20) with 20 in *.
  split.
  - apply Z.quot_pos; lia.
  - apply Z.quot_lt_upper_bound; lia.
Qed.

Lemma current_conversion_of_average (samples : list Z) :
  Spec.current_conversion sketch samples =
  current_of_average (Spec.average samples).
Proof. reflexivity. Qed.

Lemma current_conversion_range (env : Environment) (n : nat) :
  let c := Spec.current_conversion sketch (next_samples env CURRENT_PIN n 20) in
  F32.nonneg_finite c = true /\
  F32.gtb c (S754_zero false) = true /\
  F32.geb c least_current = true.
Proof.
  intros c; subst c; rewrite current_conversion_of_average.
  pose proof (average_range _ (next_samples_range env CURRENT_PIN n 20)
                (next_samples_length env CURRENT_PIN n 20)) as Ha.
  pose proof (holds_from_spec _ _ _ current_range_check
                (Spec.average (next_samples env CURRENT_PIN n 20))) as H.
  cbv beta zeta in H; rewrite !andb_true_iff in H.
  destruct H as ((H1 & H2) & H3); [ | auto ].
  change (Z.of_nat (Z.to_nat 65536)) with 65536.
  change (2 ^ 16) with 65536 in Ha; lia.
Qed.

Lemma gtb_zero_not_zero (c : F32.float) :
  F32.gtb c (S754_zero false) = true -> F32.eqb c (S754_zero false) = false.
Proof.
  unfold F32.gtb, F32.eqb, SFltb, SFeqb.
  destruct c as [s | s | | s m e]; simpl; try congruence;
    destruct s; congruence.
Qed.

Lemma voltage_conversion_range (env : Environment) (n : nat) :
  F32.nonneg_finite
    (Spec.voltage_conversion sketch (adc env VOLTAGE_PIN n mod 2 ^ 16)) = true.
Proof.
  apply (holds_from_spec _ _ _ voltage_range_check).
  change (Z.of_nat (Z.to_nat 65536)) with 65536.
  pose proof (Z.mod_pos_bound (adc env VOLTAGE_PIN n) (2 ^ 16) ltac:(lia)).
  change (2 ^ 16) with 65536 in *; lia.
Qed.

(** X6. The current [readCurrent] reports is never zero and never
    negative: for every twenty samples it is a finite number of at least
    9354378 * 2^-32 A (about 0.00218 A), the value at an average of 2047
    counts; no integer average converts to the 1.65 V mid-scale. *)
Theorem readCurrent_never_zero (env : Environment) (w : World) :
  exists (c : F32.float) (w' : World),
    readCurrent sketch env w = Some (c, w') /\
    F32.nonneg_finite c = true /\
    F32.eqb c (S754_zero false) = false /\
    F32.gtb c (S754_zero false) = true /\
    F32.geb c least_current = true /\
    Spec.current_conversion sketch (repeat 2047 20) = least_current /\
    F32.within least_current (2178 # 1000000) (1 # 1000000) = true.
Proof.
  rewrite readCurrent_run.
  destruct (current_conversion_range env (conversions w)) as (H1 & H2 & H3).
  eexists _, _; split; [ reflexivity | ].
  split; [ exact H1 | ].
  split; [ apply gtb_zero_not_zero, H2 | ].
  split; [ exact H2 | ].
  split; [ exact H3 | ].
  split; vm_compute; reflexivity.
Qed.


(** ** What a run of the sketch keeps *)

Lemma page_events_quiet (l : list Event) :
  forallb is_page_event l = true ->
  total_delay l = 0 /\ relay_writes l = [] /\ writes_relay_only l = true.
Proof.
  induction l as [ | e l IH]; [ repeat split | ].
  cbn [forallb]; intros H; apply andb_true_iff in H; destruct H as (He & Hl).
  destruct e; try discriminate He.
  cbn [total_delay relay_writes writes_relay_only forallb andb]; auto.
Qed.

Lemma sampling_events_quiet (samples : list Z) :
  total_delay (sampling_events samples) = Z.of_nat (List.length samples) /\
  relay_writes (sampling_events samples) = [] /\
  writes_relay_only (sampling_events samples) = true.
Proof.
  induction samples as [ | v samples (IH1 & IH2 & IH3)]; [ repeat split | ].
  cbn [sampling_events flat_map app total_delay relay_writes
       writes_relay_only forallb andb List.length].
  fold (sampling_events samples).
  repeat split; auto; lia.
Qed.

Section Steps.

Variable cfg : Config.
Variable env : Environment.

(** One iteration, as far as pins, counters and the trace go. *)
Lemma loop_step (w w' : World) :
  exec (loop cfg env) w = Some w' ->
  exists (w1 : World) (switch : list Event),
    pins w1 = pins w /\ loadConnected w1 = loadConnected w /\
    currentVoltage w' =
      Spec.voltage_conversion cfg
        (adc env VOLTAGE_PIN (conversions w) mod 2 ^ 16) /\
    currentCurrent w' =
      Spec.current_conversion cfg
        (next_samples env CURRENT_PIN (S (conversions w)) 20) /\
    currentPower w' = F32.mul (currentVoltage w') (currentCurrent w') /\
    conversions w' = (conversions w + 21)%nat /\ polls w' = S (polls w) /\
    wifi_polls w' = wifi_polls w /\ routes w' = routes w /\
    trace w' =
      trace w ++ served cfg env w ++
      (AnalogRead VOLTAGE_PIN (adc env VOLTAGE_PIN (conversions w) mod 2 ^ 16)
       :: sampling_events (next_samples env CURRENT_PIN (S (conversions w)) 20))
      ++ switch ++
      [SerialOut (Spec.status_line (currentVoltage w') (currentCurrent w')
                    (currentPower w') (loadConnected w'));
       Delay 5000] /\
    ((switch = [] /\ pins w' = pins w /\ loadConnected w' = loadConnected w /\
      pins w LOAD_RELAY_PIN = desired_level cfg w1) \/
     (switch = [DigitalWrite LOAD_RELAY_PIN (desired_level cfg w1);
                SerialOut (switch_line cfg w1)] /\
      pins w LOAD_RELAY_PIN <> desired_level cfg w1 /\
      pins w' LOAD_RELAY_PIN = desired_level cfg w1 /\
      (forall p, p <> LOAD_RELAY_PIN -> pins w' p = pins w p) /\
      loadConnected w' = Level_eqb (desired_level cfg w1) HIGH)).
Proof.
  intros Hrun.
  destruct (loop_decision cfg env w)
    as (w1 & Hpins & Hflag & Hroutes & Hconv & Hpolls & Hwifi & Htr & Hv &
        Hc & Hp & w2 & Hctl & Hloop).
  unfold exec in Hrun; rewrite Hloop in Hrun.
  cbn [option_map snd] in Hrun; injection Hrun as <-.
  rewrite controlLoad_exact in Hctl; injection Hctl as Hw2.
  exists w1.
  destruct (Level_eqb (pins w1 LOAD_RELAY_PIN) (desired_level cfg w1)) eqn:E;
    subst w2; world_simpl.
  - exists []; rewrite Htr, Hpins, Hflag, Hroutes, Hconv, Hpolls, Hwifi.
    apply Level_eqb_eq in E; rewrite Hpins in E.
    rewrite <- Hv, <- Hc, <- Hp.
    repeat (split; [ try reflexivity; try assumption | ]).
    + rewrite <- !app_assoc; reflexivity.
    + left; auto.
  - exists [DigitalWrite LOAD_RELAY_PIN (desired_level cfg w1);
            SerialOut (switch_line cfg w1)].
    rewrite Htr, Hflag, Hroutes, Hconv, Hpolls, Hwifi, Z.eqb_refl.
    rewrite <- Hv, <- Hc, <- Hp.
    repeat (split; [ try reflexivity; try assumption | ]).
    + rewrite <- !app_assoc; reflexivity.
    + right; split; [ reflexivity | ].
      split.
      { intros Heq; rewrite <- Hpins in Heq.
        apply Level_eqb_eq in Heq; congruence. }
      split; [ reflexivity | ].
      split; [ | reflexivity ].
      intros p Hne; rewrite Hpins.
      destruct (Z.eqb_spec p LOAD_RELAY_PIN); [ contradiction | reflexivity ].
Qed.

End Steps.

Lemma last_default (ls : list Level) :
  forall (a d1 d2 : Level), last (a :: ls) d1 = last (a :: ls) d2.
Proof.
  induction ls as [ | x ls IH]; intros a d1 d2; [ reflexivity | ].
  change (last (x :: ls) d1 = last (x :: ls) d2); apply IH.
Qed.

Lemma alternating_snoc (ls : list Level) :
  forall (prev l : Level),
    alternating prev (ls ++ [l]) =
    alternating prev ls && negb (Level_eqb (last ls prev) l).
Proof.
  induction ls as [ | x ls IH]; intros prev l.
  - cbn; rewrite andb_true_r; reflexivity.
  - cbn [app alternating]; rewrite IH, andb_assoc.
    destruct ls as [ | y ls]; [ reflexivity | ].
    rewrite (last_default (y :: ls) x prev x).
    change (last (x :: y :: ls) x) with (last (y :: ls) x); reflexivity.
Qed.

Lemma last_snoc (ls : list Level) (l d : Level) : last (ls ++ [l]) d = l.
Proof. apply last_last. Qed.

Section Histories.

Variable cfg : Config.
Variable env : Environment.

Lemma loop_keeps_relay_history (w w' : World) :
  relay_history_ok w -> exec (loop cfg env) w = Some w' -> relay_history_ok w'.
Proof.
  intros (rest & Hw & Halt & Hlast) Hrun.
  destruct (loop_step cfg env w w' Hrun)
    as (w1 & switch & _ & _ & _ & _ & _ & _ & _ & _ & _ & Htr & Hcase).
  destruct (page_events_quiet _ (served_pages_only cfg env w)) as (_ & Hs & _).
  destruct (sampling_events_quiet
              (next_samples env CURRENT_PIN (S (conversions w)) 20))
    as (_ & Ha & _).
  assert (Hwrites : relay_writes (trace w') =
                    (LOW :: rest) ++ relay_writes switch).
  { rewrite Htr, !relay_writes_app, Hw, Hs.
    cbn [relay_writes app]; rewrite Ha, app_nil_r; reflexivity. }
  destruct Hcase as [(-> & Hpins & _) | (-> & Hne & Hpin & _)].
  - exists rest; rewrite Hwrites, app_nil_r, Hpins; auto.
  - exists (rest ++ [desired_level cfg w1]).
    rewrite Hwrites; cbn [relay_writes]; rewrite Z.eqb_refl.
    split; [ reflexivity | ].
    rewrite alternating_snoc, Halt, app_comm_cons.
    rewrite (last_snoc (LOW :: rest)), Hpin.
    split; [ | reflexivity ].
    cbn [andb].
    assert (Hl : last rest LOW = pins w LOAD_RELAY_PIN).
    { rewrite <- Hlast; destruct rest; reflexivity. }
    rewrite Hl.
    destruct (pins w LOAD_RELAY_PIN), (desired_level cfg w1);
      try reflexivity; contradiction.
Qed.

(** X7. The relay is actuated on changes only.  In every state the sketch
    reaches, the levels written to the relay pin since reset start with the
    LOW of [setup], never repeat the level written just before, and end
    with the level the pin holds: a tick whose power stays on the same side
    of the threshold writes nothing. *)
Theorem relay_writes_alternate (w : World) :
  reachable cfg env w ->
  exists rest : list Level,
    relay_writes (trace w) = LOW :: rest /\
    alternating LOW rest = true /\
    last (LOW :: rest) LOW = pins w LOAD_RELAY_PIN.
Proof.
  induction 1 as [power_on fuel w Hsetup | w w' Hreach IH Hloop].
  - destruct (setup_relay_facts env power_on fuel w Hsetup)
      as (Hw & _ & Hpins).
    exists []; rewrite Hw, Hpins; repeat split; reflexivity.
  - exact (loop_keeps_relay_history w w' IH Hloop).
Qed.

(** X8. The sketch drives no pin but the relay.  After [setup] and any
    number of iterations every pin write in the trace is a write to
    [LOAD_RELAY_PIN], and every other pin is at its power-on level. *)
Theorem only_relay_pin_driven
        (power_on : Z -> Level) (fuel n : nat) (w : World) :
  exec (setup env fuel;; loops cfg env n) (boot power_on) = Some w ->
  writes_relay_only (trace w) = true /\
  (forall p, p <> LOAD_RELAY_PIN -> pins w p = power_on p).
Proof.
  unfold exec, bind; intros Hrun.
  destruct (setup env fuel (boot power_on)) as [[[] w0] | ] eqn:Hsetup;
    [ | discriminate ].
  assert (Hs : exec (setup env fuel) (boot power_on) = Some w0)
    by (unfold exec; rewrite Hsetup; reflexivity).
  destruct (setup_relay_facts env power_on fuel w0 Hs)
    as (_ & Hquiet & Hpins).
  apply (loops_invariant cfg env
           (fun w => writes_relay_only (trace w) = true /\
                     (forall p, p <> LOAD_RELAY_PIN -> pins w p = power_on p))
           ) with (n := n) (w := w0); [ | | exact Hrun ].
  - clear; intros w w' (Hw & Hp) Hloop.
    destruct (loop_step cfg env w w' Hloop)
      as (w1 & switch & _ & _ & _ & _ & _ & _ & _ & _ & _ & Htr & Hcase).
    destruct (page_events_quiet _ (served_pages_only cfg env w))
      as (_ & _ & Hs).
    destruct (sampling_events_quiet
                (next_samples env CURRENT_PIN (S (conversions w)) 20))
      as (_ & _ & Ha).
    rewrite Htr, !writes_relay_only_app, Hw, Hs.
    cbn [writes_relay_only forallb andb]; fold (writes_relay_only (sampling_events
                (next_samples env CURRENT_PIN (S (conversions w)) 20))).
    rewrite Ha.
    destruct Hcase as [(-> & Hpins & _) | (-> & _ & _ & Hother & _)].
    + rewrite Hpins; split; [ reflexivity | exact Hp ].
    + split; [ reflexivity | ].
      intros p Hne; rewrite Hother; auto.
  - split; [ exact Hquiet | ].
    intros p Hne; rewrite Hpins.
      destruct (Z.eqb_spec p LOAD_RELAY_PIN); [ contradiction | reflexivity ].
Qed.

(** X9. Every iteration returns and costs the same: after [n] iterations
    the sketch has made 21 n more analog conversions and n more polls of
    the web server, and has slept 5020 n more milliseconds (5000 at the end
    of each tick and 20 between the current samples); it never polls the
    WiFi status again. *)
Theorem loops_cost (n : nat) (w : World) :
  exists w' : World,
    exec (loops cfg env n) w = Some w' /\
    conversions w' = (conversions w + 21 * n)%nat /\
    polls w' = (polls w + n)%nat /\
    wifi_polls w' = wifi_polls w /\
    total_delay (trace w') = total_delay (trace w) + 5020 * Z.of_nat n.
Proof.
  destruct (loops_returns cfg env n w) as (w' & Hrun).
  exists w'; split; [ exact Hrun | ].
  revert w w' Hrun; induction n as [ | n IH]; intros w w' Hrun.
  - injection Hrun as <-; repeat split; lia.
  - unfold exec in Hrun; cbn [loops] in Hrun; unfold bind in Hrun.
    destruct (loop cfg env w) as [[[] w1] | ] eqn:Hloop; [ | discriminate ].
    assert (H1 : exec (loop cfg env) w = Some w1)
      by (unfold exec; rewrite Hloop; reflexivity).
    destruct (loop_step cfg env w w1 H1)
      as (w0 & switch & _ & _ & _ & _ & _ & Hc & Hp & Hwf & _ & Htr & Hcase).
    destruct (IH w1 w' Hrun) as (Hc' & Hp' & Hwf' & Hd').
    rewrite Hc', Hp', Hwf', Hd', Hc, Hp, Hwf, Htr.
    destruct (page_events_quiet _ (served_pages_only cfg env w))
      as (Hs & _).
    destruct (sampling_events_quiet
                (next_samples env CURRENT_PIN (S (conversions w)) 20))
      as (Ha & _).
    rewrite next_samples_length in Ha.
    assert (Hsw : total_delay switch = 0).
    { destruct Hcase as [(-> & _) | (-> & _)]; reflexivity. }
    rewrite !total_delay_app, Hs, Hsw.
    cbn [total_delay]; rewrite Ha.
    repeat split; lia.
Qed.

End Histories.

Lemma only_relay_pin_driven_witness :
  exists w : World,
    exec (setup (steady 2048) 1;; loops sketch (steady 2048) 3)
         (boot (fun _ => HIGH)) = Some w /\
    pins w VOLTAGE_PIN = HIGH.
Proof.
  assert (H : { w : World |
                exec (setup (steady 2048) 1;; loops sketch (steady 2048) 3)
                     (boot (fun _ => HIGH)) = Some w }).
  { eexists; vm_compute; reflexivity. }
  destruct H as (w & Hrun).
  exists w; split; [ exact Hrun | ].
  apply (proj2 (only_relay_pin_driven sketch (steady 2048)
                  (fun _ => HIGH) 1 3 w Hrun)).
  discriminate.
Defined.

Lemma relay_writes_alternate_witness :
  exists rest : list Level,
    relay_writes (trace (first_world (steady 2048))) = LOW :: rest /\
    alternating LOW rest = true /\
    last (LOW :: rest) LOW = pins (first_world (steady 2048)) LOAD_RELAY_PIN.
Proof.
  apply (relay_writes_alternate sketch (steady 2048)).
  apply (reach_setup sketch (steady 2048) (fun _ => HIGH) 1).
  vm_compute; reflexivity.
Defined.

(** ** Readings in reachable states *)

Lemma nonneg_finite_is_finite (x : F32.float) :
  F32.nonneg_finite x = true -> F32.is_finite x = true.
Proof. destruct x as [s | s | | [ | ] m e]; simpl; congruence. Qed.

Lemma is_finite_not_nan (x : F32.float) :
  F32.is_finite x = true -> F32.is_nan x = false.
Proof. destruct x; simpl; congruence. Qed.

(** X10. With the constants of the sketch every reading is a number.  In
    every reachable state the voltage and the current are finite and not
    negative and the power is not a NaN, so the test of the decision step
    compares numbers: [power >= threshold] fails exactly when
    [power < threshold]. *)
Theorem reachable_readings_are_numbers (env : Environment) (w : World) :
  reachable sketch env w ->
  F32.nonneg_finite (currentVoltage w) = true /\
  F32.nonneg_finite (currentCurrent w) = true /\
  F32.is_nan (currentPower w) = false /\
  F32.geb (currentPower w) (MIN_POWER_TO_CONNECT_W sketch) =
    negb (F32.ltb (currentPower w) (MIN_POWER_TO_CONNECT_W sketch)).
Proof.
  intros Hreach.
  assert (H : F32.nonneg_finite (currentVoltage w) = true /\
              F32.nonneg_finite (currentCurrent w) = true /\
              F32.is_nan (currentPower w) = false).
  { destruct Hreach as [power_on fuel w Hsetup | w w' _ Hloop].
    - apply setup_run in Hsetup.
      destruct Hsetup as (_ & _ & (Hv & Hc & Hp) & _).
      rewrite Hv, Hc, Hp; repeat split; reflexivity.
    - destruct (loop_step sketch env w w' Hloop)
        as (w1 & switch & _ & _ & Hv & Hc & Hp & _).
      pose proof (voltage_conversion_range env (conversions w)) as Hvr.
      destruct (current_conversion_range env (S (conversions w)))
        as (Hcr & _).
      rewrite Hp, Hv, Hc.
      split; [ exact Hvr | ].
      split; [ exact Hcr | ].
      apply SFmul_finite_finite_not_nan; apply nonneg_finite_is_finite;
        assumption. }
  destruct H as (Hv & Hc & Hp).
  repeat (split; [ assumption | ]).
  apply geb_ltb_complement; [ exact Hp | reflexivity ].
Qed.

Lemma reachable_readings_are_numbers_witness :
  F32.nonneg_finite (currentVoltage (first_world (steady 2048))) = true /\
  F32.nonneg_finite (currentCurrent (first_world (steady 2048))) = true /\
  F32.is_nan (currentPower (first_world (steady 2048))) = false /\
  F32.geb (currentPower (first_world (steady 2048)))
          (MIN_POWER_TO_CONNECT_W sketch) =
    negb (F32.ltb (currentPower (first_world (steady 2048)))
                  (MIN_POWER_TO_CONNECT_W sketch)).
Proof.
  apply (reachable_readings_are_numbers (steady 2048)).
  apply (reach_setup sketch (steady 2048) (fun _ => HIGH) 1).
  vm_compute; reflexivity.
Defined.

(** ** Serving the page *)

(** X11. A poll of the web server is read-only.  It always returns, and
    it changes no reading, no pin, not [loadConnected] and makes no analog
    conversion; with nothing pending it adds nothing to the trace, and once
    [setup] has registered its route a pending [GET /] is answered by
    exactly one reply, 200 text/html, whose body is the page of the cached
    values. *)
Theorem page_request_is_read_only
        (cfg : Config) (env : Environment) (w : World) :
  exists w' : World,
    server_handleClient cfg env w = Some (tt, w') /\
    same_readings w w' /\ pins w' = pins w /\
    loadConnected w' = loadConnected w /\
    conversions w' = conversions w /\ routes w' = routes w /\
    polls w' = S (polls w) /\
    (client env (polls w) = None -> trace w' = trace w) /\
    (routes w = [("/"%string, HTTP_GET)] ->
     client env (polls w) =
       Some {| req_method := HTTP_GET; req_uri := "/" |} ->
     trace w' =
       trace w ++
       [HttpSend 200 "text/html"
          (Spec.status_page (currentVoltage w) (currentCurrent w)
             (currentPower w) (loadConnected w)
             (MIN_POWER_TO_CONNECT_W cfg))]).
Proof.
  rewrite server_handleClient_run; eexists; split; [ reflexivity | ].
  unfold same_readings; world_simpl.
  split; [ repeat split | ].
  repeat (split; [ reflexivity | ]).
  split.
  - intros Hnone; unfold served; rewrite Hnone; apply app_nil_r.
  - intros Hroutes Hget; unfold served, eval.
    rewrite Hget, Hroutes, getPage_run; reflexivity.
Qed.

Lemma page_request_is_read_only_witness :
  exists w' : World,
    server_handleClient sketch polled_once serving = Some (tt, w') /\
    trace w' =
      trace serving ++
      [HttpSend 200 "text/html"
         (Spec.status_page (currentVoltage serving) (currentCurrent serving)
            (currentPower serving) (loadConnected serving)
            (MIN_POWER_TO_CONNECT_W sketch))].
Proof.
  destruct (page_request_is_read_only sketch polled_once serving)
    as (w' & Hrun & _ & _ & _ & _ & _ & _ & _ & Hget).
  exists w'; split; [ exact Hrun | ].
  apply Hget; reflexivity.
Defined.

(** ** The voltage scale *)

Lemma ltb_leb (x y : F32.float) : F32.ltb x y = true -> F32.leb x y = true.
Proof.
  unfold F32.ltb, F32.leb, SFltb, SFleb.
  destruct (SFcompare x y) as [[ | | ] | ]; congruence.
Qed.

(** X12. Over the 12-bit range of the ADC the voltage [readVoltage]
    reports lies between 0 and the full scale 3.3 * 4.0 = 13.2 V, which it
    reaches at the sample 4095 exactly. *)
Theorem voltage_full_scale (s : Z) :
  0 <= s <= ADC_RESOLUTION sketch ->
  F32.nonneg_finite (Spec.voltage_conversion sketch s) = true /\
  F32.leb (Spec.voltage_conversion sketch s)
          (Spec.voltage_conversion sketch (ADC_RESOLUTION sketch)) = true /\
  Spec.voltage_conversion sketch (ADC_RESOLUTION sketch) = F32.literal 132 10.
Proof.
  change (ADC_RESOLUTION sketch) with 4095; intros Hs.
  assert (Hstep : forall s, 0 <= s < 4095 ->
            F32.ltb (Spec.voltage_conversion sketch s)
                    (Spec.voltage_conversion sketch (s + 1)) = true /\
            F32.nonneg_finite (Spec.voltage_conversion sketch s) = true /\
            F32.nonneg_finite (Spec.voltage_conversion sketch (s + 1)) = true).
  { intros z Hz.
    pose proof (forallb_range _ 4095 voltage_conversion_steps z) as H.
    cbv beta in H; rewrite !andb_true_iff in H.
    destruct H as ((H1 & H2) & H3); [ lia | auto ]. }
  destruct (Z.eq_dec s 4095) as [-> | Hne].
  - repeat split; vm_compute; reflexivity.
  - split; [ apply Hstep; lia | ].
    split; [ | vm_compute; reflexivity ].
    apply ltb_leb, (rising_chain (Spec.voltage_conversion sketch) 4095 Hstep);
      lia.
Qed.

Lemma voltage_full_scale_witness :
  F32.leb (Spec.voltage_conversion sketch 2048)
          (Spec.voltage_conversion sketch (ADC_RESOLUTION sketch)) = true.
Proof.
  apply (proj1 (proj2 (voltage_full_scale 2048 ltac:(vm_compute; split; congruence)))).
Defined.


(** ** The order of the stages of [loop] *)

(** C10, as the sketch orders its stages.  Every iteration of [loop] runs
    these five steps, each to its end, in this order: the poll of the web
    server (which answers at most one pending request, from the values
    cached before this iteration samples anything, with no analog read),
    the acquisition (one voltage read, then twenty current reads 1 ms
    apart, then the product), the decision (the relay pin is left at the
    level the fresh power calls for; a write and its line only on a
    change), the diagnostic serial line of the tick, and the 5000 ms sleep.
    The trace of the iteration is exactly the concatenation of what the
    five steps emit. *)
Theorem C10_loop_stage_order (cfg : Config) (env : Environment) (w : World) :
  exists w0 w1 w2 w3 w' : World,
    exec (server_handleClient cfg env) w = Some w0 /\
    exec (acquire cfg env) w0 = Some w1 /\
    exec (controlLoad cfg) w1 = Some w2 /\
    exec report w2 = Some w3 /\
    exec (delay 5000) w3 = Some w' /\
    exec (loop cfg env) w = Some w' /\
    trace w0 = trace w ++ served cfg env w /\
    same_readings w w0 /\ conversions w0 = conversions w /\
    forallb is_page_event (served cfg env w) = true /\
    (client env (polls w) = None -> served cfg env w = []) /\
    (forall (code : Z) (ctype body : string),
       In (HttpSend code ctype body) (served cfg env w) -> code = 200 ->
       body = Spec.status_page (currentVoltage w) (currentCurrent w)
                (currentPower w) (loadConnected w)
                (MIN_POWER_TO_CONNECT_W cfg)) /\
    trace w1 = trace w0 ++ acquisition_events env (conversions w) /\
    conversions w1 = (conversions w + 21)%nat /\
    forallb is_acquisition_event (acquisition_events env (conversions w)) = true /\
    List.length
      (filter is_analog_read (acquisition_events env (conversions w))) = 21%nat /\
    currentVoltage w1 =
      Spec.voltage_conversion cfg
        (adc env VOLTAGE_PIN (conversions w) mod 2 ^ 16) /\
    currentCurrent w1 =
      Spec.current_conversion cfg
        (next_samples env CURRENT_PIN (S (conversions w)) 20) /\
    currentPower w1 = F32.mul (currentVoltage w1) (currentCurrent w1) /\
    trace w2 = trace w1 ++ decision_events cfg w1 /\
    pins w2 LOAD_RELAY_PIN = desired_level cfg w1 /\
    forallb is_decision_event (decision_events cfg w1) = true /\
    same_readings w1 w2 /\
    trace w3 =
      trace w2 ++
      [SerialOut (Spec.status_line (currentVoltage w2) (currentCurrent w2)
                    (currentPower w2) (loadConnected w2))] /\
    trace w' = trace w3 ++ [Delay 5000] /\
    trace w' =
      trace w ++ served cfg env w ++
      acquisition_events env (conversions w) ++
      decision_events cfg w1 ++
      [SerialOut (Spec.status_line (currentVoltage w') (currentCurrent w')
                    (currentPower w') (loadConnected w'));
       Delay 5000].
Proof.
  destruct (loop_run cfg env w)
    as (w1 & w2 & decided & Hh & Hacq & Hctl & Hrun & Hv & Hc & Hp & _ & _ &
        _ & Htr1 & Hread & _).
  assert (Hconv : conversions w1 = (conversions w + 21)%nat).
  { rewrite acquire_run in Hacq; injection Hacq as <-; reflexivity. }
  assert (Hdec : trace w2 = trace w1 ++ decision_events cfg w1 /\
                 pins w2 LOAD_RELAY_PIN = desired_level cfg w1).
  { rewrite controlLoad_exact in Hctl; injection Hctl as <-.
    unfold decision_events.
    destruct (Level_eqb (pins w1 LOAD_RELAY_PIN) (desired_level cfg w1)) eqn:E.
    - rewrite app_nil_r; apply Level_eqb_eq in E; auto.
    - world_simpl; rewrite Z.eqb_refl; auto. }
  destruct Hdec as (Htr2 & Hpin2).
  exists (set_trace (trace w ++ served cfg env w) (set_polls (S (polls w)) w)),
    w1, w2,
    (set_trace
       (trace w2 ++
        [SerialOut (Spec.status_line (currentVoltage w2) (currentCurrent w2)
                      (currentPower w2) (loadConnected w2))])
       w2),
    (set_trace
       ((trace w2 ++
         [SerialOut (Spec.status_line (currentVoltage w2) (currentCurrent w2)
                       (currentPower w2) (loadConnected w2))])
        ++ [Delay 5000])
       w2).
  split; [ unfold exec; rewrite Hh; reflexivity | ].
  split; [ unfold exec; rewrite Hacq; reflexivity | ].
  split; [ unfold exec; rewrite Hctl; reflexivity | ].
  split; [ unfold exec; rewrite report_run; reflexivity | ].
  split; [ reflexivity | ].
  split.
  { unfold exec; rewrite Hrun; world_simpl.
    cbn [option_map snd]; rewrite <- app_assoc; reflexivity. }
  world_simpl.
  split; [ reflexivity | ].
  split; [ unfold same_readings; auto | ].
  split; [ reflexivity | ].
  split; [ apply served_pages_only | ].
  split.
  { intros Hnone; unfold served; rewrite Hnone; reflexivity. }
  split.
  { intros code ctype body Hin Hcode.
    unfold served in Hin.
    destruct (client env (polls w)) as [r | ]; [ | destruct Hin ].
    destruct (existsb _ (routes w)).
    - unfold eval in Hin; rewrite getPage_run in Hin.
      cbn [option_map fst] in Hin.
      destruct Hin as [Hin | []]; injection Hin as _ _ <-; reflexivity.
    - destruct Hin as [Hin | []]; injection Hin as <- _ _; discriminate Hcode. }
  split; [ rewrite Htr1, <- app_assoc; reflexivity | ].
  split; [ exact Hconv | ].
  split.
  { unfold acquisition_events; cbn [forallb is_acquisition_event andb].
    apply sampling_events_acquisition. }
  split.
  { unfold acquisition_events; cbn [filter is_analog_read List.length].
    rewrite sampling_events_reads, next_samples_length; reflexivity. }
  split; [ exact Hv | ].
  split; [ exact Hc | ].
  split; [ exact Hp | ].
  split; [ exact Htr2 | ].
  split; [ exact Hpin2 | ].
  split.
  { unfold decision_events.
    destruct (Level_eqb _ _); [ reflexivity | ].
    cbn [forallb is_decision_event andb]; rewrite Z.eqb_refl; reflexivity. }
  split; [ exact Hread | ].
  split; [ reflexivity | ].
  split; [ reflexivity | ].
  rewrite Htr2, Htr1, <- !app_assoc; reflexivity.
Qed.

Lemma C10_loop_stage_order_witness :
  exists w' : World,
    exec (loop sketch polled_once) serving = Some w' /\
    In (HttpSend 200 "text/html"
          (Spec.status_page (currentVoltage serving) (currentCurrent serving)
             (currentPower serving) (loadConnected serving)
             (MIN_POWER_TO_CONNECT_W sketch)))
       (trace w').
Proof.
  destruct (C10_loop_stage_order sketch polled_once serving)
    as (w0 & w1 & w2 & w3 & w' & _ & _ & _ & _ & _ & Hrun & _ & _ & _ & _ & _ &
        Hbody & _ & _ & _ & _ & _ & _ & _ & _ & _ & _ & _ & _ & _ & Htr).
  exists w'; split; [ exact Hrun | ].
  rewrite Htr; apply in_or_app; right; apply in_or_app; left.
  assert (Hex : exists body,
             In (HttpSend 200 "text/html" body)
                (served sketch polled_once serving)).
  { unfold served, eval; rewrite getPage_run.
    eexists; left; reflexivity. }
  destruct Hex as (body & Hin).
  rewrite (Hbody 200 "text/html"%string body Hin eq_refl) in Hin.
  exact Hin.
Defined.

(** C10 as stated fails.  In the iteration that starts in [serving] with a
    [GET /] pending, the only presentation of the page comes first, before
    the voltage read that opens the acquisition, and shows the values
    cached before the iteration (all zero); nothing after the acquisition
    and the decision presents the page again. *)
Lemma C10_page_precedes_acquisition :
  exists (w' : World) (rest : list Event),
    exec (loop sketch polled_once) serving = Some w' /\
    trace w' =
      HttpSend 200 "text/html"
        (Spec.status_page (S754_zero false) (S754_zero false)
           (S754_zero false) false (MIN_POWER_TO_CONNECT_W sketch))
      :: AnalogRead VOLTAGE_PIN 2048 :: rest /\
    forallb (fun e => negb (is_page_event e)) rest = true /\
    F32.gtb (currentVoltage w') (S754_zero false) = true.
Proof.
  eexists _, _; split; [ vm_compute; reflexivity | ].
  split; [ vm_compute; reflexivity | ].
  split; vm_compute; reflexivity.
Qed.
